(** * The task-to-pages deployment service (project-1.py)

    A shallow embedding of the request handler [receive_task] and of the
    functions it calls, followed by the properties of the pipeline.

    Python values are embedded as follows.
    - [str] is [string]; a character is a code point below 256, so that
      [lower], [strip] and slicing are the interpreter's own on that range.
    - [int] is [Z].
    - A parsed JSON document is a [pyval].
    - A function that calls the network, sleeps or prints is a computation
      in the monad [M]: it reads the answers of the outside world and
      extends the trace of events; it ends with a value or an exception. *)

From Stdlib Require Import String Ascii List ZArith Bool Arith Lia.
From Stdlib Require Import DecimalString.
Import ListNotations.
Open Scope string_scope.

(** ** Python strings *)

Module Str.

Definition chr (n : nat) : string := String (ascii_of_nat n) "".

(** [pat in s] *)
Fixpoint contains (pat s : string) : bool :=
  prefix pat s ||
  match s with
  | "" => false
  | String _ s' => contains pat s'
  end.

(** [s.split(sep)] for a separator that is not empty.  [skip] counts the
    characters of a separator found that are still to be dropped. *)
Fixpoint split_from (sep : string) (skip : nat) (s : string) : list string :=
  match s with
  | "" => [""]
  | String c s' =>
      match skip with
      | S k => split_from sep k s'
      | O =>
          if prefix sep s
          then "" :: split_from sep (String.length sep - 1) s'
          else match split_from sep 0 s' with
               | p :: ps => String c p :: ps
               | [] => [String c ""]
               end
      end
  end.

Definition split (s sep : string) : list string := split_from sep 0 s.

(** [s.replace(old, new)] for [old] not empty: the occurrences are
    taken from the left and do not overlap. *)
Fixpoint replace_from (old new : string) (skip : nat) (s : string) : string :=
  match s with
  | "" => ""
  | String c s' =>
      match skip with
      | S k => replace_from old new k s'
      | O =>
          if prefix old s
          then new ++ replace_from old new (String.length old - 1) s'
          else String c (replace_from old new 0 s')
      end
  end.

Definition replace (s old new : string) : string := replace_from old new 0 s.

Definition is_upper (c : ascii) : bool :=
  let n := nat_of_ascii c in
  (((65 <=? n) && (n <=? 90)) ||
   ((192 <=? n) && (n <=? 222) && negb (n =? 215)))%nat.

Definition lower_char (c : ascii) : ascii :=
  if is_upper c then ascii_of_nat (nat_of_ascii c + 32) else c.

(** [s.lower()] *)
Fixpoint lower (s : string) : string :=
  match s with
  | "" => ""
  | String c s' => String (lower_char c) (lower s')
  end.

(** [c.isspace()] *)
Definition isspace (c : ascii) : bool :=
  let n := nat_of_ascii c in
  (((9 <=? n) && (n <=? 13)) || ((28 <=? n) && (n <=? 32)) ||
   (n =? 133) || (n =? 160))%nat.

Fixpoint lstrip (s : string) : string :=
  match s with
  | "" => ""
  | String c s' => if isspace c then lstrip s' else s
  end.

Fixpoint rstrip (s : string) : string :=
  match s with
  | "" => ""
  | String c s' =>
      match rstrip s' with
      | "" => if isspace c then "" else String c ""
      | r => String c r
      end
  end.

(** [s.strip()] *)
Definition strip (s : string) : string := rstrip (lstrip s).

(** [s[:n]] *)
Definition slice_to (n : nat) (s : string) : string := substring 0 n s.

(** [sep.join(l)] *)
Definition join (sep : string) (l : list string) : string := String.concat sep l.

(** [str(n)] for an [int] *)
Definition of_int (z : Z) : string := NilZero.string_of_int (Z.to_int z).

(** [s.encode()]: the UTF-8 bytes of a string of code points below 256 *)
Fixpoint encode (s : string) : list nat :=
  match s with
  | "" => []
  | String c s' =>
      let n := nat_of_ascii c in
      if (n <? 128)%nat then n :: encode s'
      else (192 + n / 64) :: (128 + n mod 64) :: encode s'
  end.

Definition b64_alphabet : string :=
  "ABCDEFGHIJKLMNOPQRSTUVWXYZabcdefghijklmnopqrstuvwxyz0123456789+/".

Definition b64_digit (n : nat) : string :=
  match get n b64_alphabet with
  | Some c => String c ""
  | None => "="
  end.

(** [base64.b64encode(bytes).decode()] *)
Fixpoint b64encode (l : list nat) : string :=
  match l with
  | [] => ""
  | [a] =>
      b64_digit (a / 4) ++ b64_digit ((a mod 4) * 16) ++ "=="
  | [a; b] =>
      b64_digit (a / 4) ++ b64_digit ((a mod 4) * 16 + b / 16) ++
      b64_digit ((b mod 16) * 4) ++ "="
  | a :: b :: c :: r =>
      b64_digit (a / 4) ++ b64_digit ((a mod 4) * 16 + b / 16) ++
      b64_digit ((b mod 16) * 4 + c / 64) ++ b64_digit (c mod 64) ++
      b64encode r
  end.

End Str.

(** A double quote, for the texts that hold one. *)
Definition dq : string := Str.chr 34.

(** A line break. *)
Definition nl : string := Str.chr 10.

(** ** Python values read from JSON *)

#[warnings="-register-all"]
Inductive pyval : Type :=
| PyNone
| PyBool (b : bool)
| PyInt (z : Z)
| PyFloat (repr : string)
| PyStr (s : string)
| PyList (l : list pyval)
| PyDict (d : list (string * pyval)).

(** The value bound to a key of a dict, the first binding of the list. *)
Fixpoint lookup (k : string) (d : list (string * pyval)) : option pyval :=
  match d with
  | [] => None
  | (k', v) :: d' => if String.eqb k k' then Some v else lookup k d'
  end.

(** ** Exceptions *)

(** The exceptions the interpreter raises by itself. *)
Inductive builtin_error : Type :=
| KeyError (key : pyval)
| IndexError (container : pyval)
| TypeError (operand : pyval)
| AttributeError (obj : pyval) (attr : string).

Inductive exn : Type :=
| Exception (msg : string)
    (** [raise Exception(msg)] *)
| HTTPException (status_code : Z) (detail : string)
    (** [raise HTTPException(status_code=..., detail=...)] *)
| Builtin (b : builtin_error)
| RequestException (msg : string)
    (** raised inside [requests]: no connection, a timeout, a body that is
        not JSON *).

Inductive result (A : Type) : Type :=
| Ok (a : A)
| Raise (e : exn).
Arguments Ok {A} a.
Arguments Raise {A} e.

(** [v[k]] for a string [k] *)
Definition getitem (v : pyval) (k : string) : result pyval :=
  match v with
  | PyDict d =>
      match lookup k d with
      | Some x => Ok x
      | None => Raise (Builtin (KeyError (PyStr k)))
      end
  | _ => Raise (Builtin (TypeError v))
  end.

(** [v[i]] for an index [i] that is not negative *)
Definition getindex (v : pyval) (i : nat) : result pyval :=
  match v with
  | PyList l =>
      match nth_error l i with
      | Some x => Ok x
      | None => Raise (Builtin (IndexError v))
      end
  | PyStr s =>
      match get i s with
      | Some c => Ok (PyStr (String c ""))
      | None => Raise (Builtin (IndexError v))
      end
  | PyDict _ => Raise (Builtin (KeyError (PyInt (Z.of_nat i))))
  | _ => Raise (Builtin (TypeError v))
  end.

(** ** Requests, responses and the trace *)

Inductive method : Type := GET | POST | PUT.

Record http_call : Type := mkCall {
  q_method : method;
  q_url : string;
  q_headers : list (string * string);
  q_json : option pyval;
  q_timeout : option Z
}.

(** [response.json()] gives a value or raises. *)
Inductive json_body : Type :=
| Json (v : pyval)
| NotJson (msg : string).

Record response : Type := mkResponse {
  status_code : Z;
  text : string;
  body : json_body
}.

(** What a call of [requests] ends with. *)
Inductive outcome : Type :=
| Responded (r : response)
| Failed (msg : string).

Inductive event : Type :=
| EvHttp (q : http_call) (o : outcome)
| EvSleep (seconds : Z)
| EvPrint (line : string).

(** The outside world answers a call, knowing all that happened before. *)
Definition world : Type := list event -> http_call -> outcome.

(** ** The monad of the pipeline *)

(** A computation is run in a world and after a history; it gives the
    events it adds to the history, in the order they happen, and the value
    it returns or the exception it raises. *)
Definition M (A : Type) : Type := world -> list event -> list event * result A.

Definition ret {A} (a : A) : M A := fun _ _ => ([], Ok a).

Definition raise {A} (e : exn) : M A := fun _ _ => ([], Raise e).

Definition lift {A} (r : result A) : M A := fun _ _ => ([], r).

Definition bind {A B} (m : M A) (f : A -> M B) : M B :=
  fun w t =>
    let (e1, r1) := m w t in
    match r1 with
    | Ok a => let (e2, r2) := f a w (t ++ e1)%list in ((e1 ++ e2)%list, r2)
    | Raise e => (e1, Raise e)
    end.

(** [try: m  except Exception as e: h e] *)
Definition try_except {A} (m : M A) (h : exn -> M A) : M A :=
  fun w t =>
    let (e1, r1) := m w t in
    match r1 with
    | Ok a => (e1, Ok a)
    | Raise e => let (e2, r2) := h e w (t ++ e1)%list in ((e1 ++ e2)%list, r2)
    end.

Notation "x <- m ;; k" := (bind m (fun x => k))
  (at level 61, m at next level, right associativity).
Notation "m ;;; k" := (bind m (fun _ => k))
  (at level 61, right associativity).

(** [requests.get], [requests.post], [requests.put] *)
Definition requests (q : http_call) : M response :=
  fun w t =>
    match w t q with
    | Responded r => ([EvHttp q (Responded r)], Ok r)
    | Failed msg => ([EvHttp q (Failed msg)], Raise (RequestException msg))
    end.

(** [time.sleep(n)] *)
Definition sleep (n : Z) : M unit := fun _ _ => ([EvSleep n], Ok tt).

(** [print(line)] *)
Definition print (line : string) : M unit := fun _ _ => ([EvPrint line], Ok tt).

(** [response.json()] *)
Definition response_json (r : response) : M pyval :=
  match body r with
  | Json v => ret v
  | NotJson msg => raise (RequestException msg)
  end.

(** ** The program *)

Definition GITHUB_USERNAME : string := "SiriChandanaSykam".

Record Attachment : Type := mkAttachment {
  name : string;
  url : string
}.

Record TaskRequest : Type := mkTaskRequest {
  email : string;
  secret : string;
  task : string;
  round : Z;
  nonce : string;
  brief : string;
  checks : list string;
  evaluation_url : string;
  attachments : option (list Attachment)
}.

(** [f"{x}"] for [x] that [os.getenv] returned *)
Definition fmt (x : option string) : string :=
  match x with
  | Some s => s
  | None => "None"
  end.

(** *** Cleaning the generated text (lines 124 to 133) *)

Definition backticks : string := Str.chr 96 ++ Str.chr 96 ++ Str.chr 96.

(** The test of line 129 on one part of the text. *)
Definition has_root_tag (part : string) : bool :=
  Str.contains "<html" (Str.lower part) ||
  Str.contains "<!DOCTYPE" (Str.lower part).

(** The loop of lines 128 to 131: the first part that passes the test
    replaces the text, and the loop is left. *)
Fixpoint scan_parts (parts : list string) (html_code : string) : string :=
  match parts with
  | [] => html_code
  | part :: rest =>
      if has_root_tag part
      then Str.strip (Str.replace (Str.replace part "html" "") "HTML" "")
      else scan_parts rest html_code
  end.

Definition clean_code_blocks (html_code : string) : string :=
  if Str.contains backticks html_code
  then scan_parts (Str.split html_code backticks) html_code
  else html_code.

Definition is_backticks (v : pyval) : bool :=
  match v with
  | PyStr s => String.eqb s backticks
  | _ => false
  end.

(** Lines 124 to 133 on whatever value the response holds as its content:
    [in] is a search in a string, among the items of a list or among the
    keys of a dict, and only a string has [split]. *)
Definition clean_content (html_code : pyval) : result pyval :=
  match html_code with
  | PyStr s => Ok (PyStr (clean_code_blocks s))
  | PyList l =>
      if existsb is_backticks l
      then Raise (Builtin (AttributeError html_code "split"))
      else Ok html_code
  | PyDict d =>
      match lookup backticks d with
      | Some _ => Raise (Builtin (AttributeError html_code "split"))
      | None => Ok html_code
      end
  | _ => Raise (Builtin (TypeError html_code))
  end.

(** [content.encode()] followed by the base64 encoding.  On the strings
    embedded here, code points below 256, the encoding to UTF-8 always
    succeeds; a text with a lone surrogate, on which the interpreter raises
    [UnicodeEncodeError], lies outside the embedding, and no property below
    is stated of it. *)
Definition encode_content (content : pyval) : result string :=
  match content with
  | PyStr s => Ok (Str.b64encode (Str.encode s))
  | _ => Raise (Builtin (AttributeError content "encode"))
  end.

Definition get_mit_license : string :=
  Str.join nl [
    "MIT License";
    "";
    "Copyright (c) 2025";
    "";
    "Permission is hereby granted, free of charge, to any person obtaining a copy";
    "of this software and associated documentation files (the " ++ dq ++ "Software" ++ dq ++ "), to deal";
    "in the Software without restriction, including without limitation the rights";
    "to use, copy, modify, merge, publish, distribute, sublicense, and/or sell";
    "copies of the Software, and to permit persons to whom the Software is";
    "furnished to do so, subject to the following conditions:";
    "";
    "The above copyright notice and this permission notice shall be included in all";
    "copies or substantial portions of the Software.";
    "";
    "THE SOFTWARE IS PROVIDED " ++ dq ++ "AS IS" ++ dq ++ ", WITHOUT WARRANTY OF ANY KIND, EXPRESS OR";
    "IMPLIED, INCLUDING BUT NOT LIMITED TO THE WARRANTIES OF MERCHANTABILITY,";
    "FITNESS FOR A PARTICULAR PURPOSE AND NONINFRINGEMENT. IN NO EVENT SHALL THE";
    "AUTHORS OR COPYRIGHT HOLDERS BE LIABLE FOR ANY CLAIM, DAMAGES OR OTHER";
    "LIABILITY, WHETHER IN AN ACTION OF CONTRACT, TORT OR OTHERWISE, ARISING FROM,";
    "OUT OF OR IN CONNECTION WITH THE SOFTWARE OR THE USE OR OTHER DEALINGS IN THE";
    "SOFTWARE."
  ].

Definition generate_readme (repo_name brief : string) (round_num : Z) : string :=
  Str.join nl [
    "# " ++ repo_name;
    "";
    "## Summary";
    "Auto-generated application (Round " ++ Str.of_int round_num ++ "): " ++ brief;
    "";
    "## Setup";
    "No setup required. This is a static HTML page deployed on GitHub Pages.";
    "";
    "## Usage";
    "1. Visit the GitHub Pages URL for this repository";
    "2. The application will load and run in your browser";
    "3. Follow the on-screen instructions";
    "";
    "## Code Explanation";
    "This application was automatically generated using LLM-based code generation (Groq/Llama).";
    "";
    "The code includes:";
    "- Self-contained HTML with embedded CSS and JavaScript";
    "- Bootstrap 5 for styling";
    "- All required functionality as specified in the brief";
    "";
    "## Deployment";
    "- Hosted on GitHub Pages";
    "- Automatically deployed from the main branch";
    "- Updates are live within minutes of pushing changes";
    "";
    "## License";
    "MIT License - see LICENSE file for details"
  ].

(** The prompt of lines 77 to 103. *)
Definition attachment_info (attachments : option (list Attachment)) : string :=
  match attachments with
  | None | Some [] => ""
  | Some atts =>
      "ATTACHMENTS:" ++ nl ++
      Str.join nl
        (map (fun att => "- " ++ name att ++ ": " ++ Str.slice_to 100 (url att) ++ "...") atts)
  end.

Definition checks_list (checks : list string) : string :=
  Str.join nl (map (fun check => "- " ++ check) checks).

Definition prompt (brief : string) (checks : list string)
    (attachments : option (list Attachment)) : string :=
  Str.join nl [
    "Generate a complete single-page HTML application.";
    "";
    "TASK BRIEF:";
    brief;
    "";
    "REQUIREMENTS (the app MUST pass these checks):";
    checks_list checks;
    "";
    attachment_info attachments;
    "";
    "INSTRUCTIONS:";
    "1. Create a COMPLETE, self-contained HTML file";
    "2. Include ALL CSS in style tags within head";
    "3. Include ALL JavaScript in script tags before body closing tag";
    "4. Use Bootstrap 5 from CDN";
    "5. Make sure ALL requirement checks will pass";
    "6. Use professional, clean code";
    "";
    "Return ONLY the HTML code, nothing else. No explanations."
  ].

Section Service.

(** The text the interpreter gives for one of its own exceptions. *)
Variable builtin_str : builtin_error -> string.

(** The environment variables, read once with [os.getenv]. *)
Variable MY_SECRET : option string.
Variable GITHUB_TOKEN : option string.
Variable GROQ_API_KEY : option string.

(** [str(e)] *)
Definition str_exn (e : exn) : string :=
  match e with
  | Exception msg => msg
  | HTTPException c detail => Str.of_int c ++ ": " ++ detail
  | Builtin b => builtin_str b
  | RequestException msg => msg
  end.

(** The [headers] of the calls to the hosting platform. *)
Definition github_headers : list (string * string) :=
  [("Authorization", "token " ++ fmt GITHUB_TOKEN);
   ("Accept", "application/vnd.github.v3+json")].

Definition contents_url (repo_name file_path : string) : string :=
  "https://api.github.com/repos/" ++ GITHUB_USERNAME ++ "/" ++ repo_name ++
  "/contents/" ++ file_path.

(** *** generate_app_with_groq *)

Definition groq_request (brief : string) (checks : list string)
    (attachments : option (list Attachment)) : http_call :=
  mkCall POST "https://api.groq.com/openai/v1/chat/completions"
    [("Authorization", "Bearer " ++ fmt GROQ_API_KEY);
     ("Content-Type", "application/json")]
    (Some (PyDict [
       ("model", PyStr "llama-3.3-70b-versatile");
       ("messages", PyList [
          PyDict [("role", PyStr "system");
                  ("content", PyStr "You are an expert web developer who creates complete, working HTML applications.")];
          PyDict [("role", PyStr "user");
                  ("content", PyStr (prompt brief checks attachments))]]);
       ("temperature", PyFloat "0.7");
       ("max_tokens", PyInt 8000)]))
    None.

Definition generate_app_with_groq (brief : string) (checks : list string)
    (attachments : option (list Attachment)) : M pyval :=
  response <- requests (groq_request brief checks attachments) ;;
  doc <- response_json response ;;
  choices <- lift (getitem doc "choices") ;;
  choice <- lift (getindex choices 0) ;;
  message <- lift (getitem choice "message") ;;
  html_code <- lift (getitem message "content") ;;
  lift (clean_content html_code).

(** *** add_file_to_repo *)

Definition add_request (repo_name file_path encoded_content message : string) : http_call :=
  mkCall PUT (contents_url repo_name file_path) github_headers
    (Some (PyDict [("message", PyStr message);
                   ("content", PyStr encoded_content)]))
    None.

Definition created_or_ok (r : response) : bool :=
  ((status_code r =? 201) || (status_code r =? 200))%Z.

Definition add_file_to_repo (repo_name file_path : string) (content : pyval)
    (message : string) : M pyval :=
  encoded_content <- lift (encode_content content) ;;
  response <- requests (add_request repo_name file_path encoded_content message) ;;
  if created_or_ok response
  then
    doc <- response_json response ;;
    commit <- lift (getitem doc "commit") ;;
    lift (getitem commit "sha")
  else raise (Exception ("Failed to add " ++ file_path ++ ": " ++ text response)).

(** *** update_file_in_repo *)

Definition get_request (repo_name file_path : string) : http_call :=
  mkCall GET (contents_url repo_name file_path) github_headers None None.

Definition update_request (repo_name file_path encoded_content message : string)
    (file_sha : pyval) : http_call :=
  mkCall PUT (contents_url repo_name file_path) github_headers
    (Some (PyDict [("message", PyStr message);
                   ("content", PyStr encoded_content);
                   ("sha", file_sha)]))
    None.

Definition update_file_in_repo (repo_name file_path : string) (content : pyval)
    (message : string) : M pyval :=
  get_response <- requests (get_request repo_name file_path) ;;
  if negb (status_code get_response =? 200)%Z
  then add_file_to_repo repo_name file_path content message
  else
    doc <- response_json get_response ;;
    file_sha <- lift (getitem doc "sha") ;;
    encoded_content <- lift (encode_content content) ;;
    response <- requests (update_request repo_name file_path encoded_content message file_sha) ;;
    if created_or_ok response
    then
      doc <- response_json response ;;
      commit <- lift (getitem doc "commit") ;;
      lift (getitem commit "sha")
    else raise (Exception ("Failed to update " ++ file_path ++ ": " ++ text response)).

(** *** create_github_repo *)

Definition create_request (repo_name brief : string) : http_call :=
  mkCall POST "https://api.github.com/user/repos" github_headers
    (Some (PyDict [("name", PyStr repo_name);
                   ("description", PyStr ("Auto-generated: " ++ Str.slice_to 100 brief));
                   ("private", PyBool false);
                   ("auto_init", PyBool false)]))
    None.

Definition create_github_repo (repo_name : string) (html_code : pyval)
    (brief : string) : M (pyval * pyval) :=
  response <- requests (create_request repo_name brief) ;;
  if negb (status_code response =? 201)%Z
  then raise (Exception ("Failed to create repo: " ++ text response))
  else
    doc <- response_json response ;;
    repo_url <- lift (getitem doc "html_url") ;;
    sleep 2 ;;;
    add_file_to_repo repo_name "README.md"
      (PyStr (generate_readme repo_name brief 1)) "Initial commit" ;;;
    sleep 1 ;;;
    commit_sha <- add_file_to_repo repo_name "index.html" html_code "Add generated app" ;;
    add_file_to_repo repo_name "LICENSE" (PyStr get_mit_license) "Add MIT license" ;;;
    ret (repo_url, commit_sha).

(** *** update_github_repo *)

Definition update_github_repo (repo_name : string) (html_code : pyval)
    (brief : string) : M (pyval * pyval) :=
  let repo_url := "https://github.com/" ++ GITHUB_USERNAME ++ "/" ++ repo_name in
  commit_sha <- update_file_in_repo repo_name "index.html" html_code
                  "Update app for round 2" ;;
  update_file_in_repo repo_name "README.md"
    (PyStr (generate_readme repo_name brief 2)) "Update README for round 2" ;;;
  ret (PyStr repo_url, commit_sha).

(** *** enable_github_pages *)

Definition pages_request (repo_name : string) : http_call :=
  mkCall POST
    ("https://api.github.com/repos/" ++ GITHUB_USERNAME ++ "/" ++ repo_name ++ "/pages")
    github_headers
    (Some (PyDict [("source", PyDict [("branch", PyStr "main"); ("path", PyStr "/")])]))
    None.

Definition enable_github_pages (repo_name : string) : M unit :=
  response <- requests (pages_request repo_name) ;;
  (if negb ((status_code response =? 201) || (status_code response =? 409))%Z
   then print ("Warning: GitHub Pages response: " ++ Str.of_int (status_code response))
   else ret tt) ;;;
  sleep 5.

(** *** notify_evaluation *)

Definition payload (request : TaskRequest) (repo_url commit_sha : pyval)
    (pages_url : string) : pyval :=
  PyDict [("email", PyStr (email request));
          ("task", PyStr (task request));
          ("round", PyInt (round request));
          ("nonce", PyStr (nonce request));
          ("repo_url", repo_url);
          ("commit_sha", commit_sha);
          ("pages_url", PyStr pages_url)].

Definition notify_request (request : TaskRequest) (repo_url commit_sha : pyval)
    (pages_url : string) : http_call :=
  mkCall POST (evaluation_url request)
    [("Content-Type", "application/json")]
    (Some (payload request repo_url commit_sha pages_url))
    (Some 10%Z).

(** One turn of the loop of lines 268 to 286; [true] stands for the
    [return] of line 282. *)
Definition notify_attempt (q : http_call) (delay : Z) : M bool :=
  (if (0 <? delay)%Z then sleep delay else ret tt) ;;;
  try_except
    (response <- requests q ;;
     if (status_code response =? 200)%Z
     then print "Evaluation notified successfully" ;;; ret true
     else print ("Evaluation URL returned " ++ Str.of_int (status_code response)
                 ++ ", retrying...") ;;; ret false)
    (fun e =>
       print ("Failed to notify evaluation URL: " ++ str_exn e ++ ", retrying...") ;;;
       ret false).

Fixpoint notify_loop (q : http_call) (delays : list Z) : M unit :=
  match delays with
  | [] => print "Warning: Failed to notify evaluation URL after all retries"
  | delay :: rest =>
      returned <- notify_attempt q delay ;;
      if returned then ret tt else notify_loop q rest
  end.

Definition notify_evaluation (request : TaskRequest) (repo_url commit_sha : pyval)
    (pages_url : string) : M unit :=
  notify_loop (notify_request request repo_url commit_sha pages_url)
    [0; 1; 2; 4; 8]%Z.

(** *** receive_task *)

(** [request.secret != MY_SECRET] *)
Definition secret_differs (request : TaskRequest) : bool :=
  match MY_SECRET with
  | Some s => negb (String.eqb (secret request) s)
  | None => true
  end.

(** Lines 47 to 52. *)
Definition publish (request : TaskRequest) (html_code : pyval) : M (pyval * pyval) :=
  let repo_name := task request in
  if (round request =? 1)%Z
  then
    print ("Creating GitHub repo: " ++ repo_name) ;;;
    create_github_repo repo_name html_code (brief request)
  else
    print ("Updating GitHub repo: " ++ repo_name) ;;;
    update_github_repo repo_name html_code (brief request).

(** Lines 54 to 56. *)
Definition enable_pages_on_first_round (request : TaskRequest) : M unit :=
  if (round request =? 1)%Z
  then
    print "Enabling GitHub Pages..." ;;;
    enable_github_pages (task request)
  else ret tt.

Definition pages_url_of (repo_name : string) : string :=
  "https://" ++ GITHUB_USERNAME ++ ".github.io/" ++ repo_name ++ "/".

Definition success_body (repo_url : pyval) (pages_url : string) (commit_sha : pyval) : pyval :=
  PyDict [("status", PyStr "success");
          ("repo_url", repo_url);
          ("pages_url", PyStr pages_url);
          ("commit_sha", commit_sha)].

Definition error_body (message : string) : pyval :=
  PyDict [("status", PyStr "error"); ("message", PyStr message)].

(** The body of the [try] of lines 40 to 69. *)
Definition pipeline (request : TaskRequest) : M pyval :=
  print ("Received task: " ++ task request ++ ", round: " ++ Str.of_int (round request)) ;;;
  print "Generating code with Groq..." ;;;
  html_code <- generate_app_with_groq (brief request) (checks request)
                 (attachments request) ;;
  let repo_name := task request in
  published <- publish request html_code ;;
  let (repo_url, commit_sha) := published in
  enable_pages_on_first_round request ;;;
  let pages_url := pages_url_of repo_name in
  print "Notifying evaluation URL..." ;;;
  notify_evaluation request repo_url commit_sha pages_url ;;;
  print "Task completed successfully!" ;;;
  ret (success_body repo_url pages_url commit_sha).

Definition receive_task (request : TaskRequest) : M pyval :=
  if secret_differs request
  then raise (HTTPException 401 "Invalid secret")
  else
    try_except (pipeline request)
      (fun e =>
         print ("Error: " ++ str_exn e) ;;;
         ret (error_body (str_exn e))).

(** The status line the web framework answers with: 200 for a value the
    handler returns, the status of an [HTTPException] it raises, 500 for
    any other exception. *)
Definition http_status (r : result pyval) : Z :=
  match r with
  | Ok _ => 200
  | Raise (HTTPException c _) => c
  | Raise _ => 500
  end.

(** ** Notions the properties are stated with *)

(** The parts of a text that lie between an opening and a closing fence:
    every second part of the split at the fences, when a part follows. *)
Fixpoint fenced_blocks (parts : list string) : list string :=
  match parts with
  | _ :: inside :: rest =>
      match rest with
      | [] => []
      | _ => inside :: fenced_blocks rest
      end
  | _ => []
  end.

(** A string without its first [k] characters. *)
Fixpoint drop (k : nat) (s : string) : string :=
  match k, s with
  | S k', String _ s' => drop k' s'
  | _, _ => s
  end.

(** A character occurs in a string. *)
Fixpoint occurs (c : ascii) (s : string) : bool :=
  match s with
  | "" => false
  | String c' s' => Ascii.eqb c c' || occurs c s'
  end.

(** The events that reach the outside: the calls and the sleeps. *)
Definition io_events (evs : list event) : list event :=
  filter (fun e => match e with EvPrint _ => false | _ => true end) evs.

(** The calls among the events, in order. *)
Fixpoint calls (evs : list event) : list (http_call * outcome) :=
  match evs with
  | [] => []
  | EvHttp q o :: evs' => (q, o) :: calls evs'
  | _ :: evs' => calls evs'
  end.

(** An attempt of the notifier is delivered when it is answered with
    status 200. *)
Definition delivered (o : outcome) : bool :=
  match o with
  | Responded r => (status_code r =? 200)%Z
  | Failed _ => false
  end.

(** The calls and sleeps of a notifier whose attempts end with the
    outcomes [os]: before each attempt a sleep of its delay, when the
    delay is positive. *)
Fixpoint schedule (q : http_call) (delays : list Z) (os : list outcome) : list event :=
  match delays, os with
  | delay :: delays', o :: os' =>
      ((if (0 <? delay)%Z then [EvSleep delay] else []) ++
       EvHttp q o :: schedule q delays' os')%list
  | _, _ => []
  end.

(** [response.json()["commit"]["sha"]] *)
Definition commit_sha_of (r : response) : result pyval :=
  match body r with
  | Json doc =>
      match getitem doc "commit" with
      | Ok commit => getitem commit "sha"
      | Raise e => Raise e
      end
  | NotJson msg => Raise (RequestException msg)
  end.

(** A file write: a PUT. *)
Definition is_write (e : event) : Prop :=
  exists q o, e = EvHttp q o /\ q_method q = PUT.

(** The write of one path of a repository. *)
Definition is_write_of (repo_name file_path : string) (e : event) : Prop :=
  exists q o, e = EvHttp q o /\ q_method q = PUT /\
              q_url q = contents_url repo_name file_path.

(** The creation of a repository, answered with status 201. *)
Definition is_creation (repo_name brief : string) (e : event) : Prop :=
  exists resp, e = EvHttp (create_request repo_name brief) (Responded resp) /\
               status_code resp = 201%Z.

(** The paths written, in order. *)
Fixpoint written_urls (evs : list event) : list string :=
  match evs with
  | [] => []
  | EvHttp q _ :: evs' =>
      match q_method q with
      | PUT => q_url q :: written_urls evs'
      | _ => written_urls evs'
      end
  | _ :: evs' => written_urls evs'
  end.

(** A write [q] is keyed to what the read before it was answered with
    [og]: on status 200 the body of the write carries the ["sha"] the
    read gave; on another status the body has no ["sha"]. *)
Definition keyed_to (og : outcome) (q : http_call) : Prop :=
  match og with
  | Responded g =>
      if (status_code g =? 200)%Z
      then exists doc file_sha message content,
             body g = Json doc /\ getitem doc "sha" = Ok file_sha /\
             q_json q = Some (PyDict [("message", message); ("content", content);
                                      ("sha", file_sha)])
      else exists message content,
             q_json q = Some (PyDict [("message", message); ("content", content)])
  | Failed _ => False
  end.

(** The documents an update writes (lines 185 to 188), in the order they
    are written: the path, the content and the commit message of each. *)
Definition update_documents (request : TaskRequest) (html_code : pyval) :
    list (string * pyval * string) :=
  [("index.html", html_code, "Update app for round 2");
   ("README.md", PyStr (generate_readme (task request) (brief request) 2),
    "Update README for round 2")].

(** ** A world and requests to run the program on *)

Definition example_completion : pyval :=
  PyDict [("choices", PyList [PyDict [("message", PyDict [("content",
    PyStr (backticks ++ "html" ++ nl ++ "<Html><body>hi</body></Html>" ++ nl ++
           backticks))])]])].

(** Every call is answered: the generation with a fenced document, the
    creation with 201 and a location, a read with 200 and a ["sha"], a
    write with 201 and a commit numbered after the length of the history,
    any other call with 200 and a body that is not JSON. *)
Definition example_world : world :=
  fun t q =>
    match q_method q with
    | GET => Responded (mkResponse 200 "" (Json (PyDict [("sha", PyStr "blob")])))
    | PUT =>
        Responded (mkResponse 201 ""
          (Json (PyDict [("commit", PyDict [("sha", PyInt (Z.of_nat (List.length t)))])])))
    | POST =>
        if String.eqb (q_url q) "https://api.github.com/user/repos"
        then Responded (mkResponse 201 ""
               (Json (PyDict [("html_url", PyStr "https://github.com/octo/demo1")])))
        else if prefix "https://api.groq.com/" (q_url q)
        then Responded (mkResponse 200 "" (Json example_completion))
        else Responded (mkResponse 200 "ok" (NotJson "Expecting value"))
    end.

(** A world in which the evaluation URL never answers. *)
Definition silent_world : world :=
  fun t q =>
    match q_timeout q with
    | Some _ => Failed "timed out"
    | None => example_world t q
    end.

Definition example_request (round : Z) : TaskRequest :=
  mkTaskRequest "a@b.com" "s3cret" "demo1" round "abc" "a counter app"
    ["has a button"] "https://eval.example/cb" None.

Definition example_builtin_str (b : builtin_error) : string :=
  match b with
  | KeyError _ => "KeyError"
  | IndexError _ => "IndexError"
  | TypeError _ => "TypeError"
  | AttributeError _ _ => "AttributeError"
  end.

(** ** Notions for further properties *)

(** [response.json()["choices"][0]["message"]["content"]], cleaned, read
    off the body of a response. *)
Definition content_of (b : json_body) : result pyval :=
  match b with
  | NotJson msg => Raise (RequestException msg)
  | Json doc =>
      match getitem doc "choices" with
      | Raise e => Raise e
      | Ok choices =>
          match getindex choices 0 with
          | Raise e => Raise e
          | Ok choice =>
              match getitem choice "message" with
              | Raise e => Raise e
              | Ok message =>
                  match getitem message "content" with
                  | Raise e => Raise e
                  | Ok html_code => clean_content html_code
                  end
              end
          end
      end
  end.

(** What the generation gives for an outcome of its call. *)
Definition generated (o : outcome) : result pyval :=
  match o with
  | Responded resp => content_of (body resp)
  | Failed msg => Raise (RequestException msg)
  end.

(** The seconds slept, all sleeps added. *)
Fixpoint total_sleep (evs : list event) : Z :=
  match evs with
  | [] => 0
  | EvSleep n :: evs' => n + total_sleep evs'
  | _ :: evs' => total_sleep evs'
  end.

(** The two lines the pipeline prints before it calls the generation. *)
Definition opening_lines (request : TaskRequest) : list event :=
  [EvPrint ("Received task: " ++ task request ++ ", round: " ++
            Str.of_int (round request));
   EvPrint "Generating code with Groq..."].

(** [get_response.json()["sha"]] *)
Definition revision_of (g : response) : result pyval :=
  match body g with
  | Json doc => getitem doc "sha"
  | NotJson msg => Raise (RequestException msg)
  end.

(** ** Worlds in which a call goes wrong *)

(** No call gets an answer. *)
Definition offline_world : world := fun _ _ => Failed "no route to host".

(** Every call is answered with status 500 and the body of a completion. *)
Definition error_status_world : world :=
  fun _ _ => Responded (mkResponse 500 "Internal Server Error" (Json example_completion)).

(** The repository exists already. *)
Definition taken_world : world :=
  fun t q =>
    if String.eqb (q_url q) "https://api.github.com/user/repos"
    then Responded (mkResponse 422 "name already exists on this account" (NotJson ""))
    else example_world t q.

(** Every write is refused. *)
Definition forbidden_world : world :=
  fun t q =>
    match q_method q with
    | PUT => Responded (mkResponse 403 "forbidden" (NotJson ""))
    | _ => example_world t q
    end.

(** Every read is answered with the listing of a directory. *)
Definition listing_world : world :=
  fun t q =>
    match q_method q with
    | GET => Responded (mkResponse 200 "[]" (Json (PyList [])))
    | _ => example_world t q
    end.

(** No document is there yet: every read is answered with status 404. *)
Definition absent_world : world :=
  fun t q =>
    match q_method q with
    | GET => Responded (mkResponse 404 "Not Found" (Json (PyDict [("message", PyStr "Not Found")])))
    | _ => example_world t q
    end.

(** The call that enables the pages of demo1 gets no answer. *)
Definition pages_down_world : world :=
  fun t q =>
    if String.eqb (q_url q) "https://api.github.com/repos/SiriChandanaSykam/demo1/pages"
    then Failed "connection reset"
    else example_world t q.

(** ** Strings *)

Lemma prefix_occurs (c : ascii) (p s : string) :
  prefix p s = true -> occurs c p = true -> occurs c s = true.
Proof.
  revert s; induction p as [|a p IH]; intros s Hp Hc; [discriminate|].
  destruct s as [|b s]; [discriminate|].
  simpl in Hp, Hc |- *.
  destruct (ascii_dec a b) as [->|Hab]; [|discriminate].
  apply orb_true_iff in Hc as [Hc|Hc].
  - now rewrite Hc.
  - rewrite (IH s Hp Hc). apply orb_true_r.
Qed.

Lemma contains_occurs (c : ascii) (p s : string) :
  Str.contains p s = true -> occurs c p = true -> occurs c s = true.
Proof.
  induction s as [|b s IH]; simpl; intros H Hc.
  - rewrite orb_false_r in H. destruct p; [discriminate Hc|discriminate H].
  - apply orb_true_iff in H as [H|H].
    + exact (prefix_occurs c p (String b s) H Hc).
    + rewrite (IH H Hc). apply orb_true_r.
Qed.

Lemma lower_char_not_D (c : ascii) : Ascii.eqb "D" (Str.lower_char c) = false.
Proof.
  destruct c as [[] [] [] [] [] [] [] []]; vm_compute; reflexivity.
Qed.

Lemma lower_has_no_D (s : string) : occurs "D" (Str.lower s) = false.
Proof.
  induction s as [|c s IH]; cbn [Str.lower occurs]; [reflexivity|].
  now rewrite lower_char_not_D, IH.
Qed.

Lemma doctype_not_in_lower (s : string) :
  Str.contains "<!DOCTYPE" (Str.lower s) = false.
Proof.
  destruct (Str.contains "<!DOCTYPE" (Str.lower s)) eqn:H; [|reflexivity].
  apply (contains_occurs "D") in H; [|reflexivity].
  now rewrite lower_has_no_D in H.
Qed.

Lemma has_root_tag_html (part : string) :
  has_root_tag part = Str.contains "<html" (Str.lower part).
Proof.
  unfold has_root_tag. rewrite doctype_not_in_lower. apply orb_false_r.
Qed.

Lemma scan_parts_none (parts : list string) (html_code : string) :
  (forall part, In part parts -> Str.contains "<html" (Str.lower part) = false) ->
  scan_parts parts html_code = html_code.
Proof.
  induction parts as [|p parts IH]; simpl; intros H; [reflexivity|].
  rewrite has_root_tag_html, (H p (or_introl eq_refl)).
  apply IH. intros q Hq. apply H. now right.
Qed.

Lemma scan_parts_first (before after : list string) (part html_code : string) :
  (forall p, In p before -> Str.contains "<html" (Str.lower p) = false) ->
  Str.contains "<html" (Str.lower part) = true ->
  scan_parts (before ++ part :: after) html_code =
  Str.strip (Str.replace (Str.replace part "html" "") "HTML" "").
Proof.
  induction before as [|p before IH]; simpl; intros H Hp.
  - now rewrite has_root_tag_html, Hp.
  - rewrite has_root_tag_html, (H p (or_introl eq_refl)).
    apply IH; [|exact Hp]. intros q Hq. apply H. now right.
Qed.


Lemma replace_absent (old new s : string) :
  Str.contains old s = false -> Str.replace s old new = s.
Proof.
  unfold Str.replace.
  induction s as [|c s IH]; simpl; intros H; [reflexivity|].
  apply orb_false_iff in H as [Hp Hs].
  destruct old as [|a old]; [discriminate Hp|].
  simpl in Hp |- *. rewrite Hp. now rewrite (IH Hs).
Qed.

Lemma prefix_empty (s : string) : prefix "" s = true.
Proof. now destruct s. Qed.

Lemma replace_leading_html (rest : string) :
  Str.contains "html" rest = false ->
  Str.replace ("html" ++ rest) "html" "" = rest.
Proof.
  intros H. unfold Str.replace. simpl. rewrite prefix_empty.
  exact (replace_absent "html" "" rest H).
Qed.

Lemma split_from_skip (sep : string) (k : nat) (s : string) :
  Str.split_from sep k s = Str.split_from sep 0 (drop k s).
Proof.
  revert k. induction s as [|c s IH]; intros [|k]; try reflexivity.
  cbn [Str.split_from drop]. apply IH.
Qed.

Lemma split_from_not_nil (sep : string) (k : nat) (s : string) :
  Str.split_from sep k s <> [].
Proof.
  revert k. induction s as [|c s IH]; intros k; [discriminate|].
  cbn [Str.split_from]. destruct k as [|k]; [|apply IH].
  destruct (prefix sep (String c s)); [discriminate|].
  destruct (Str.split_from sep 0 s); discriminate.
Qed.

Lemma prefix_drop (p s : string) :
  prefix p s = true -> s = p ++ drop (String.length p) s.
Proof.
  revert s. induction p as [|a p IH]; intros s H; [reflexivity|].
  destruct s as [|b s]; [discriminate H|].
  cbn [prefix] in H. destruct (ascii_dec a b) as [->|]; [|discriminate H].
  cbn [String.length drop append]. now rewrite <- (IH s H).
Qed.

Lemma drop_length (k : nat) (s : string) :
  (String.length (drop k s) <= String.length s)%nat.
Proof.
  revert k. induction s as [|c s IH]; intros [|k]; cbn [drop String.length]; try lia.
  specialize (IH k). lia.
Qed.

Lemma join_cons (sep p : string) (ps : list string) :
  ps <> [] -> Str.join sep (p :: ps) = p ++ sep ++ Str.join sep ps.
Proof. now destruct ps. Qed.

(** X15: the split of line 127 loses nothing of the text: joining its
    parts with the separator gives the text back, for every text and every
    separator that is not empty, the fence of three backticks among them. *)
Theorem join_split (a : ascii) (sep' s : string) :
  Str.join (String a sep') (Str.split s (String a sep')) = s.
Proof.
  unfold Str.split. set (sep := String a sep').
  assert (H : forall n s, (String.length s <= n)%nat ->
                Str.join sep (Str.split_from sep 0 s) = s).
  { clear s. induction n as [|n IH]; intros [|c s] Hn; try reflexivity;
      cbn [String.length] in Hn; [lia|].
    cbn [Str.split_from]. destruct (prefix sep (String c s)) eqn:Hp.
    - rewrite join_cons by apply split_from_not_nil.
      rewrite split_from_skip, IH.
      + etransitivity; [|symmetry; apply (prefix_drop _ _ Hp)]. subst sep.
        cbn [String.length drop append].
        now replace (S (String.length sep') - 1)%nat with (String.length sep') by lia.
      + pose proof (drop_length (String.length sep - 1) s). lia.
    - specialize (IH s ltac:(lia)).
      pose proof (split_from_not_nil sep 0 s) as Hne.
      destruct (Str.split_from sep 0 s) as [|p ps]; [now destruct Hne|].
      rewrite <- IH. now destruct ps. }
  exact (H _ s (le_n _)).
Qed.

(** ** The notifier *)

Lemma notify_attempt_run (q : http_call) (delay : Z) (w : world) (t : list event) :
  let pre := if (0 <? delay)%Z then [EvSleep delay] else [] in
  let o := w (t ++ pre)%list q in
  exists line,
    notify_attempt q delay w t =
    ((pre ++ [EvHttp q o; EvPrint line])%list, Ok (delivered o)).
Proof.
  unfold notify_attempt, bind, try_except, requests, sleep, print, ret.
  destruct (0 <? delay)%Z; cbn [app];
    match goal with |- context [w ?h q] => destruct (w h q) as [r|msg] end;
    cbn [delivered app]; try destruct (status_code r =? 200)%Z;
    eexists; reflexivity.
Qed.

Lemma last_app_right {A : Type} (a b : list A) (d : A) :
  b <> [] -> last (a ++ b) d = last b d.
Proof.
  intros Hb. induction a as [|x a IH]; [reflexivity|].
  cbn [app last]. rewrite IH.
  destruct (a ++ b)%list eqn:E; [|reflexivity].
  apply app_eq_nil in E as [_ ->]. now destruct Hb.
Qed.

Lemma io_events_app (a b : list event) :
  io_events (a ++ b) = (io_events a ++ io_events b)%list.
Proof. apply filter_app. Qed.

Lemma notify_loop_run (q : http_call) (delays : list Z) :
  forall (w : world) (t evs : list event) (r : result unit),
  notify_loop q delays w t = (evs, r) ->
  exists os,
    r = Ok tt /\
    io_events evs = schedule q delays os /\
    (List.length os <= List.length delays)%nat /\
    (delays <> [] -> os <> []) /\
    (forall o, In o (removelast os) -> delivered o = false) /\
    ((List.length os < List.length delays)%nat ->
     delivered (last os (Failed "")) = true) /\
    (forall delay rest, delays = delay :: rest ->
     hd_error os =
     Some (w (t ++ if (0 <? delay)%Z then [EvSleep delay] else [])%list q)) /\
    ((forall o, In o os -> delivered o = false) ->
     last evs (EvSleep 0) =
     EvPrint "Warning: Failed to notify evaluation URL after all retries").
Proof.
  induction delays as [|delay rest IH]; intros w t evs r E.
  - exists []. cbn in E. injection E as <- <-.
    cbn. repeat split; try easy; intros; try lia.
  - cbn [notify_loop] in E. unfold bind at 1 in E.
    destruct (notify_attempt_run q delay w t) as [line Ha].
    rewrite Ha in E. clear Ha.
    set (pre := if (0 <? delay)%Z then [EvSleep delay] else []) in *.
    set (o := w (t ++ pre)%list q) in *.
    destruct (delivered o) eqn:Ho.
    + exists [o]. unfold ret in E. injection E as <- <-.
      rewrite app_nil_r. repeat split.
      * rewrite io_events_app. cbn [schedule]. fold pre.
        destruct (0 <? delay)%Z; subst pre; cbn; now destruct rest.
      * cbn. lia.
      * discriminate.
      * intros o' [].
      * intros _. exact Ho.
      * intros d r E. injection E as <- <-. reflexivity.
      * intros H. rewrite (H o (or_introl eq_refl)) in Ho. discriminate.
    + destruct (notify_loop q rest w (t ++ pre ++ [EvHttp q o; EvPrint line])%list)
        as [e2 r2] eqn:E2.
      injection E as <- <-.
      destruct (IH _ _ _ _ E2)
        as (os & Hr & Hio & Hlen & Hne & Hinit & Hlast & Hhd & Hwarn).
      exists (o :: os). repeat split.
      * exact Hr.
      * rewrite !io_events_app, Hio. cbn [schedule]. fold pre.
        destruct (0 <? delay)%Z; subst pre; reflexivity.
      * cbn. lia.
      * discriminate.
      * intros o' Ho'. destruct os as [|o1 os]; [destruct Ho'|].
        destruct Ho' as [<-|Ho']; [exact Ho|]. now apply Hinit.
      * intros Hlt. cbn [List.length] in Hlt.
        destruct os as [|o1 os].
        -- destruct rest as [|d rest']; [cbn in Hlt; lia|].
           now destruct Hne.
        -- change (delivered (last (o1 :: os) (Failed "")) = true).
           apply Hlast. cbn [List.length] in Hlt |- *. lia.
      * intros d r Ed. injection Ed as <- <-. reflexivity.
      * intros Hall.
        assert (Hos : forall o', In o' os -> delivered o' = false)
          by (intros o' Ho'; apply Hall; now right).
        specialize (Hwarn Hos).
        destruct e2 as [|ev e2]; [discriminate Hwarn|].
        rewrite last_app_right; [exact Hwarn|discriminate].
Qed.

(** C1: the notifier never raises; its calls and sleeps follow the
    schedule 0, 1, 2, 4, 8 for as many attempts as it makes, between one
    and five; every attempt but the last one failed (it raised or was
    answered with a status other than 200); the notifier stops before
    the fifth attempt only on a status 200; when the first attempt is
    answered with 200 it is the only one; when no attempt is answered
    with 200 there are five, with sleeps of 1, 2, 4 and 8 seconds between
    them, and the last event is the warning. *)
Theorem notify_evaluation_retries
    (request : TaskRequest) (repo_url commit_sha : pyval) (pages_url : string)
    (w : world) (t : list event) :
  let q := notify_request request repo_url commit_sha pages_url in
  let run := notify_evaluation request repo_url commit_sha pages_url w t in
  snd run = Ok tt /\
  exists os,
    io_events (fst run) = schedule q [0; 1; 2; 4; 8]%Z os /\
    hd_error os = Some (w t q) /\
    (1 <= List.length os <= 5)%nat /\
    (forall o, In o (removelast os) -> delivered o = false) /\
    ((List.length os < 5)%nat -> delivered (last os (Failed "")) = true) /\
    (delivered (w t q) = true -> io_events (fst run) = [EvHttp q (w t q)]) /\
    ((forall o, In o os -> delivered o = false) ->
     exists o1 o2 o3 o4 o5,
       os = [o1; o2; o3; o4; o5] /\
       io_events (fst run) =
       [EvHttp q o1; EvSleep 1; EvHttp q o2; EvSleep 2; EvHttp q o3;
        EvSleep 4; EvHttp q o4; EvSleep 8; EvHttp q o5] /\
       last (fst run) (EvSleep 0) =
       EvPrint "Warning: Failed to notify evaluation URL after all retries").
Proof.
  intros q run. unfold notify_evaluation in run. fold q in run.
  destruct run as [evs r] eqn:E. subst run.
  destruct (notify_loop_run q _ w t evs r E)
    as (os & Hr & Hio & Hlen & Hne & Hinit & Hlast & Hhd & Hwarn).
  specialize (Hhd _ _ eq_refl). cbn [Z.ltb Z.compare] in Hhd.
  rewrite app_nil_r in Hhd.
  cbn [fst snd]. split; [exact Hr|]. exists os.
  cbn [List.length] in Hlen, Hlast.
  assert (Hos : os <> []) by (apply Hne; discriminate).
  repeat split; try assumption.
  - destruct os; [now destruct Hos|cbn; lia].
  - intros Hd. rewrite Hio.
    destruct os as [|o [|o' os]]; [now destruct Hos| |].
    + cbn in Hhd. injection Hhd as ->. reflexivity.
    + cbn in Hhd. injection Hhd as ->.
      rewrite (Hinit (w t q)) in Hd; [discriminate|now left].
  - intros Hall. rewrite Hio.
    destruct os as [|o1 [|o2 [|o3 [|o4 [|o5 [|o6 os]]]]]];
      cbn [List.length] in Hlen, Hlast; try lia;
      try (now destruct Hos);
      try (rewrite Hall in Hlast; [specialize (Hlast ltac:(lia)); discriminate
                                  |cbn; tauto]).
    exists o1, o2, o3, o4, o5. repeat split. now apply Hwarn.
Qed.

(** ** Running the pipeline step by step *)

(** The term a stuck computation waits for: the innermost scrutinee. *)
Ltac waits_for t :=
  lazymatch t with
  | match ?x with _ => _ end => waits_for x
  | (match ?x with _ => _ end) _ => waits_for x
  | (match ?x with _ => _ end) _ _ => waits_for x
  | _ => t
  end.

Ltac unfold_monad H :=
  cbv beta iota zeta
    delta [bind ret raise lift requests sleep print try_except response_json negb] in H;
  cbn [app encode_content] in H.

(** One step of a run recorded in [H]: the definitions of the monad are
    unfolded, and the answer of the world, the body, the lookup or the
    test the run waits for is split into its cases. *)
Ltac run_step H :=
  unfold_monad H;
  lazymatch type of H with
  | ?run = _ =>
      let s := waits_for run in
      lazymatch s with
      | (_, _) => fail
      | _ => destruct s eqn:?
      end
  end.

Ltac run_all H :=
  repeat run_step H; unfold_monad H;
  apply pair_equal_spec in H; destruct H as [<- <-].

Lemma bind_inv {A B : Type} (m : M A) (f : A -> M B) (w : world)
    (t evs : list event) (r : result B) :
  bind m f w t = (evs, r) ->
  exists e1 r1,
    m w t = (e1, r1) /\
    match r1 with
    | Ok a => exists e2, f a w (t ++ e1)%list = (e2, r) /\ evs = (e1 ++ e2)%list
    | Raise e => evs = e1 /\ r = Raise e
    end.
Proof.
  unfold bind. destruct (m w t) as [e1 [a|e]]; intros H.
  - destruct (f a w (t ++ e1)%list) as [e2 r2] eqn:E.
    injection H as <- <-. exists e1, (Ok a). split; [reflexivity|].
    now exists e2.
  - injection H as <- <-. now exists e1, (Raise e).
Qed.

Lemma calls_app (a b : list event) : calls (a ++ b) = (calls a ++ calls b)%list.
Proof.
  induction a as [|[q o| |] a IH]; cbn [app calls]; [reflexivity| |assumption..].
  now rewrite IH.
Qed.

Lemma split_cons_inv {A : Type} (x e : A) (l pre post : list A) :
  x :: l = (pre ++ e :: post)%list ->
  (pre = [] /\ e = x /\ post = l) \/
  (exists pre', pre = x :: pre' /\ l = (pre' ++ e :: post)%list).
Proof.
  destruct pre as [|y pre]; cbn [app]; intros H; injection H as -> ->.
  - now left.
  - right. now exists pre.
Qed.

Lemma split_nil_inv {A : Type} (e : A) (pre post : list A) :
  [] = (pre ++ e :: post)%list -> False.
Proof. now destruct pre. Qed.

(** The cases of [H : l = pre ++ e :: post] for a list [l] given by its
    elements. *)
Ltac split_cases H :=
  repeat (let pre' := fresh "pre" in
          apply split_cons_inv in H as [(-> & -> & ->)|(pre' & -> & H)]);
  [..|now apply split_nil_inv in H].

(** ** The publisher *)

Lemma EvHttp_inj (q q' : http_call) (o o' : outcome) :
  EvHttp q o = EvHttp q' o' -> q = q' /\ o = o'.
Proof. intros H. now injection H. Qed.

(** The method of a call of the program, read off its definition. *)
Ltac method_in H :=
  cbn [q_method create_request get_request add_request update_request
       pages_request groq_request notify_request] in H.

Ltac method_goal :=
  cbn [q_method create_request get_request add_request update_request
       pages_request groq_request notify_request].

Ltac not_a_write Hw :=
  let q := fresh "q" in let o := fresh "o" in
  let E := fresh "E" in let Hm := fresh "Hm" in
  destruct Hw as (q & o & E & Hm);
  lazymatch type of E with
  | EvHttp ?c _ = _ =>
      let m := eval cbn [q_method create_request get_request add_request
                         update_request] in (q_method c) in
      lazymatch m with
      | PUT => fail
      | _ => apply EvHttp_inj in E; destruct E as [<- <-]; discriminate Hm
      end
  | _ => discriminate E
  end.

Ltac is_creation_here :=
  idtac;
  lazymatch goal with
  | |- is_creation _ _ (EvHttp (create_request _ _) (Responded _)) =>
      eexists; split; [reflexivity|]; apply Z.eqb_eq; assumption
  end.

Ltac is_write_of_here :=
  idtac;
  lazymatch goal with
  | |- is_write_of ?n ?p (EvHttp (add_request ?n ?p _ _) _) =>
      eexists; eexists; split; [reflexivity|]; split; reflexivity
  end.

(** The paths written are the first ones of the list expected. *)
Ltac written_prefix :=
  cbn [written_urls q_method q_url add_request update_request
       create_request get_request];
  lazymatch goal with
  | |- exists k, [] = _ => exists 0%nat
  | |- exists k, [_] = _ => exists 1%nat
  | |- exists k, [_; _] = _ => exists 2%nat
  | |- exists k, [_; _; _] = _ => exists 3%nat
  end;
  reflexivity.

Ltac find_in_prefix tac :=
  repeat first [solve [apply Exists_cons_hd; tac] | apply Exists_cons_tl].

(** C3: in round 1 every file write of the publisher comes after the
    creation of the repository, answered with 201; every write other than
    the one of README.md comes after the write of README.md; the paths
    are written in the order README.md, index.html, LICENSE. *)
Theorem publish_round_1_order (request : TaskRequest) (html_code : pyval)
    (w : world) (t evs : list event) (r : result (pyval * pyval)) :
  round request = 1%Z ->
  publish request html_code w t = (evs, r) ->
  (forall pre e post, evs = (pre ++ e :: post)%list ->
     is_write e ->
     Exists (is_creation (task request) (brief request)) pre /\
     (is_write_of (task request) "README.md" e \/
      Exists (is_write_of (task request) "README.md") pre)) /\
  exists k,
    written_urls evs =
    firstn k [contents_url (task request) "README.md";
              contents_url (task request) "index.html";
              contents_url (task request) "LICENSE"].
Proof.
  intros Hround H. unfold publish in H. rewrite Hround in H.
  change (1 =? 1)%Z with true in H.
  unfold create_github_repo, add_file_to_repo in H.
  run_all H; (split;
    [ intros pre0 ev0 post0 Hs Hw; split_cases Hs;
      try (not_a_write Hw);
      (split;
       [ find_in_prefix is_creation_here
       | first [ left; is_write_of_here
               | right; find_in_prefix is_write_of_here ] ])
    | written_prefix ]).
Qed.

Ltac read_before :=
  first [ exists []; eexists; split; [reflexivity|]
        | eexists [_]; eexists; split; [reflexivity|]
        | eexists [_; _]; eexists; split; [reflexivity|]
        | eexists [_; _; _]; eexists; split; [reflexivity|]
        | eexists [_; _; _; _]; eexists; split; [reflexivity|] ].

Ltac keyed_here :=
  cbn [keyed_to];
  match goal with
  | H : (status_code ?g =? 200)%Z = _ |- context [(status_code ?g =? 200)%Z] =>
      rewrite H
  end;
  repeat eexists; eassumption.

Lemma append_inv_head (a b c : string) : a ++ b = a ++ c -> b = c.
Proof.
  induction a as [|x a IH]; cbn [append]; intros H; [exact H|].
  injection H as H. exact (IH H).
Qed.

Lemma contents_url_inj (repo_name p1 p2 : string) :
  contents_url repo_name p1 = contents_url repo_name p2 -> p1 = p2.
Proof.
  unfold contents_url. intros H.
  repeat apply append_inv_head in H. exact H.
Qed.

Lemma Ok_inj {A : Type} (a b : A) : Ok a = Ok b -> a = b.
Proof. intros H. now injection H. Qed.

Lemma Responded_inj (a b : response) : Responded a = Responded b -> a = b.
Proof. intros H. now injection H. Qed.

(** Rewrites [Hrev] with what the run recorded about bodies and lookups. *)
Ltac read_revision Hrev :=
  unfold revision_of, commit_sha_of in Hrev;
  repeat match goal with
         | H : body ?g = _ |- _ => rewrite H in Hrev
         | H : getitem ?d ?k = _ |- _ =>
             match H with
             | Hrev => fail 1
             | _ => rewrite H in Hrev
             end
         end.

(** The cases of [Hin : In (q, o) l] for a list of calls given by its
    elements, each with the call and the outcome it stands for. *)
Ltac each_call Hin tac :=
  cbn [calls In] in Hin;
  repeat (destruct Hin as [Hin|Hin];
          [ apply pair_equal_spec in Hin; tac Hin | ]);
  try (now destruct Hin).

(** The run recorded that the answer was refused, and it was not. *)
Ltac refused_and_not :=
  match goal with
  | Hf : created_or_ok ?r = false, Ht : created_or_ok ?r = true |- _ =>
      rewrite Hf in Ht; discriminate Ht
  end.

(** Brings [Henc], the encoding of a content, together with what the run
    recorded of it. *)
Ltac same_encoding Henc :=
  cbn [encode_content] in Henc;
  try match goal with
      | H : encode_content ?c = _ |- _ =>
          lazymatch type of Henc with
          | encode_content c = _ =>
              match H with
              | Henc => fail 1
              | _ => rewrite H in Henc
              end
          end
      end;
  first [discriminate Henc | apply Ok_inj in Henc; symmetry in Henc; subst | idtac].

(** The status of the answer [g] is 200 and is not: the run took the
    other branch. *)
Ltac other_status :=
  match goal with
  | Hb : (status_code ?g =? 200)%Z = true, Hn : status_code ?g <> 200%Z |- _ =>
      exfalso; apply Hn; apply Z.eqb_eq; exact Hb
  | Hb : (status_code ?g =? 200)%Z = false, Hs : status_code ?g = 200%Z |- _ =>
      rewrite Hs in Hb; discriminate Hb
  end.

(** The next call of the list is the one expected. *)
Ltac next_call := eexists; eexists; reflexivity.

(** After round 1 the publisher starts with the read of index.html. *)
Lemma publish_update_reads_first (request : TaskRequest) (html_code : pyval)
    (w : world) (t evs : list event) (r : result (pyval * pyval)) :
  round request <> 1%Z ->
  publish request html_code w t = (evs, r) ->
  exists og rest,
    calls evs = (get_request (task request) "index.html", og) :: rest.
Proof.
  intros Hround H. unfold publish in H.
  replace (round request =? 1)%Z with false in H by (symmetry; now apply Z.eqb_neq).
  unfold update_github_repo, update_file_in_repo, add_file_to_repo in H.
  run_all H; cbn [calls]; next_call.
Qed.

(** After round 1 a read that is answered is followed at once by the
    write of the document read, with its content and its message: the plain
    creation on a status other than 200, the write keyed to the revision
    read on status 200. *)
Lemma publish_update_writes (request : TaskRequest) (html_code : pyval)
    (w : world) (t evs : list event) (r : result (pyval * pyval)) :
  round request <> 1%Z ->
  publish request html_code w t = (evs, r) ->
  forall pre c post p g content message enc,
    calls evs = (pre ++ c :: post)%list ->
    c = (get_request (task request) p, Responded g) ->
    In (p, content, message) (update_documents request html_code) ->
    encode_content content = Ok enc ->
    (status_code g <> 200%Z ->
     exists o post',
       post = (add_request (task request) p enc message, o) :: post') /\
    (forall file_sha, status_code g = 200%Z -> revision_of g = Ok file_sha ->
     exists o post',
       post = (update_request (task request) p enc message file_sha, o) :: post').
Proof.
  intros Hround H. unfold publish in H.
  replace (round request =? 1)%Z with false in H by (symmetry; now apply Z.eqb_neq).
  unfold update_github_repo, update_file_in_repo, add_file_to_repo in H.
  run_all H; intros pre0 c0 post0 p0 g0 content0 message0 enc0 Hs Hc Hdoc Henc;
    cbn [calls] in Hs; split_cases Hs;
    apply pair_equal_spec in Hc; destruct Hc as [Eq Eo];
    try discriminate Eo;
    try (apply (f_equal q_method) in Eq; method_in Eq; discriminate Eq);
    apply (f_equal q_url) in Eq; cbn [q_url get_request] in Eq;
    apply contents_url_inj in Eq; subst p0;
    apply Responded_inj in Eo; subst g0;
    cbn [update_documents In] in Hdoc;
    (destruct Hdoc as [Hdoc|[Hdoc|[]]];
     apply pair_equal_spec in Hdoc; destruct Hdoc as [Hdoc <-];
     apply pair_equal_spec in Hdoc; destruct Hdoc as [Ep <-];
     try discriminate Ep);
    same_encoding Henc;
    (split;
     [ intros Hne; first [other_status | next_call]
     | intros file_sha Hst Hrev;
       first [ other_status
             | read_revision Hrev;
               first [discriminate Hrev | apply Ok_inj in Hrev; subst file_sha; next_call] ] ]).
Qed.

(** After round 1, once the write of index.html is answered with status
    200 or 201 and a body that gives the revision of the commit, the
    publisher goes on to README.md and reads it. *)
Lemma publish_update_proceeds (request : TaskRequest) (html_code : pyval)
    (w : world) (t evs : list event) (r : result (pyval * pyval)) :
  round request <> 1%Z ->
  publish request html_code w t = (evs, r) ->
  forall pre c post q resp commit_sha,
    calls evs = (pre ++ c :: post)%list ->
    c = (q, Responded resp) ->
    q_method q = PUT ->
    q_url q = contents_url (task request) "index.html" ->
    created_or_ok resp = true ->
    commit_sha_of resp = Ok commit_sha ->
    exists og post',
      post = (get_request (task request) "README.md", og) :: post'.
Proof.
  intros Hround H. unfold publish in H.
  replace (round request =? 1)%Z with false in H by (symmetry; now apply Z.eqb_neq).
  unfold update_github_repo, update_file_in_repo, add_file_to_repo in H.
  run_all H; intros pre0 c0 post0 q0 resp0 sha0 Hs Hc Hm Hu Hok Hsha;
    cbn [calls] in Hs; split_cases Hs;
    apply pair_equal_spec in Hc; destruct Hc as [<- Eo];
    method_in Hm; try discriminate Hm;
    cbn [q_url add_request update_request] in Hu;
    try (apply contents_url_inj in Hu; discriminate Hu);
    try discriminate Eo;
    apply Responded_inj in Eo; subst resp0;
    first [ refused_and_not
          | (read_revision Hsha; discriminate Hsha)
          | next_call ].
Qed.

(** After round 1 the publisher makes no POST, so it does not create a
    repository; each of its writes comes right after a GET of the same URL
    with the same headers and is keyed to the answer of that GET; index.html
    is written before README.md. *)
Lemma publish_update_keyed (request : TaskRequest) (html_code : pyval)
    (w : world) (t evs : list event) (r : result (pyval * pyval)) :
  (1 < round request)%Z ->
  publish request html_code w t = (evs, r) ->
  (forall q o, In (q, o) (calls evs) -> q_method q <> POST) /\
  (forall repo_name brief o,
     ~ In (create_request repo_name brief, o) (calls evs)) /\
  (forall pre e post q o, evs = (pre ++ e :: post)%list ->
     e = EvHttp q o -> q_method q = PUT ->
     exists pre' og,
       pre = (pre' ++ [EvHttp (mkCall GET (q_url q) (q_headers q) None None) og])%list /\
       keyed_to og q) /\
  exists k,
    written_urls evs =
    firstn k [contents_url (task request) "index.html";
              contents_url (task request) "README.md"].
Proof.
  intros Hround H. unfold publish in H.
  replace (round request =? 1)%Z with false in H by (symmetry; apply Z.eqb_neq; lia).
  unfold update_github_repo, update_file_in_repo, add_file_to_repo in H.
  assert (Hpost : forall evs', evs' = evs ->
            (forall q o, In (q, o) (calls evs') -> q_method q <> POST) ->
            (forall q o, In (q, o) (calls evs) -> q_method q <> POST) /\
            (forall repo_name brief o,
               ~ In (create_request repo_name brief, o) (calls evs))).
  { intros evs' -> Hc. split; [exact Hc|].
    intros n b o Hin. now apply (Hc _ _ Hin). }
  run_all H;
    (rewrite <- and_assoc; split;
     [ eapply Hpost; [reflexivity|];
       cbn [calls In]; intros q0 o0 Hin;
       repeat (destruct Hin as [Hin|Hin];
               [apply pair_equal_spec in Hin; destruct Hin as [<- <-]; method_goal; discriminate|]);
       destruct Hin
     | split;
       [ intros pre0 ev0 post0 q0 o0 Hs He Hm; split_cases Hs;
         try discriminate He;
         apply EvHttp_inj in He; destruct He as [<- <-]; method_in Hm;
         try discriminate Hm;
         read_before; keyed_here
       | written_prefix ] ]).
Qed.

(** C4: after round 1 the publisher makes no POST, so it does not create
    a repository.  It starts with the read of index.html.  A read that is
    answered is followed at once by the write of the document read, with
    the content and the commit message of that document: on a status other
    than 200 the plain creation, with no revision; on status 200 the write
    keyed to the ["sha"] the read gave.  Once the write of index.html is
    answered with status 200 or 201 and the revision of its commit, the
    publisher reads README.md, which it writes in the same way.  No write
    is made otherwise: each one comes right after a GET of the same URL
    with the same headers and is keyed to its answer, and index.html is
    written before README.md. *)
Theorem publish_later_rounds (request : TaskRequest) (html_code : pyval)
    (w : world) (t evs : list event) (r : result (pyval * pyval)) :
  (1 < round request)%Z ->
  publish request html_code w t = (evs, r) ->
  (forall q o, In (q, o) (calls evs) -> q_method q <> POST) /\
  (forall repo_name brief o,
     ~ In (create_request repo_name brief, o) (calls evs)) /\
  (exists og rest,
     calls evs = (get_request (task request) "index.html", og) :: rest) /\
  (forall pre post p g content message enc,
     calls evs = (pre ++ (get_request (task request) p, Responded g) :: post)%list ->
     In (p, content, message) (update_documents request html_code) ->
     encode_content content = Ok enc ->
     (status_code g <> 200%Z ->
      exists o post',
        post = (add_request (task request) p enc message, o) :: post') /\
     (forall file_sha, status_code g = 200%Z -> revision_of g = Ok file_sha ->
      exists o post',
        post = (update_request (task request) p enc message file_sha, o) :: post')) /\
  (forall pre post q resp commit_sha,
     calls evs = (pre ++ (q, Responded resp) :: post)%list ->
     q_method q = PUT ->
     q_url q = contents_url (task request) "index.html" ->
     created_or_ok resp = true ->
     commit_sha_of resp = Ok commit_sha ->
     exists og post',
       post = (get_request (task request) "README.md", og) :: post') /\
  (forall pre e post q o, evs = (pre ++ e :: post)%list ->
     e = EvHttp q o -> q_method q = PUT ->
     exists pre' og,
       pre = (pre' ++ [EvHttp (mkCall GET (q_url q) (q_headers q) None None) og])%list /\
       keyed_to og q) /\
  exists k,
    written_urls evs =
    firstn k [contents_url (task request) "index.html";
              contents_url (task request) "README.md"].
Proof.
  intros Hround H.
  assert (Hne : round request <> 1%Z) by lia.
  destruct (publish_update_keyed _ _ _ _ _ _ Hround H) as (Hpost & Hcreate & Hkeyed & Hk).
  split; [exact Hpost|]. split; [exact Hcreate|].
  split; [exact (publish_update_reads_first _ _ _ _ _ _ Hne H)|].
  split.
  { intros pre post p g content message enc Hs.
    exact (publish_update_writes _ _ _ _ _ _ Hne H _ _ _ _ _ _ _ _ Hs eq_refl). }
  split.
  { intros pre post q resp commit_sha Hs.
    exact (publish_update_proceeds _ _ _ _ _ _ Hne H _ _ _ _ _ _ Hs eq_refl). }
  split; [exact Hkeyed|exact Hk].
Qed.

Lemma create_request_not_pages (repo_name brief n : string) :
  create_request repo_name brief <> pages_request n.
Proof.
  intros E. apply (f_equal q_url) in E.
  cbn [q_url create_request pages_request append] in E. discriminate E.
Qed.

Lemma groq_request_not_pages (b : string) (c : list string)
    (a : option (list Attachment)) (n : string) :
  groq_request b c a <> pages_request n.
Proof.
  intros E. apply (f_equal q_url) in E.
  cbn [q_url groq_request pages_request append] in E. discriminate E.
Qed.

(** Rewrites with what the run recorded about a response until the
    revision identifier of a commit is read off. *)
Ltac sha_here :=
  unfold commit_sha_of;
  repeat match goal with
         | H : ?x = _ |- context [match ?x with _ => _ end] => rewrite H
         end;
  first [assumption | reflexivity].

Ltac artifact_call :=
  match goal with
  | |- context [(add_request ?n "index.html" ?e ?m, Responded ?r)] =>
      exists (add_request n "index.html" e m), r
  | |- context [(update_request ?n "index.html" ?e ?m ?s, Responded ?r)] =>
      exists (update_request n "index.html" e m s), r
  end.

Ltac unfold_publish H :=
  unfold publish, create_github_repo, update_github_repo, update_file_in_repo,
    add_file_to_repo in H.

(** The revision identifier the publisher returns is the one of the
    commit that wrote index.html, and there is one such write only. *)
Lemma publish_commit_sha (request : TaskRequest) (html_code : pyval)
    (w : world) (t evs : list event) (r : result (pyval * pyval)) :
  publish request html_code w t = (evs, r) ->
  forall repo_url commit_sha, r = Ok (repo_url, commit_sha) ->
  (exists q resp,
     In (q, Responded resp) (calls evs) /\ q_method q = PUT /\
     q_url q = contents_url (task request) "index.html" /\
     commit_sha_of resp = Ok commit_sha) /\
  (forall q o, In (q, o) (calls evs) -> q_method q = PUT ->
     q_url q = contents_url (task request) "index.html" ->
     exists resp, o = Responded resp /\ commit_sha_of resp = Ok commit_sha).
Proof.
  intros H. unfold_publish H.
  run_all H; intros u0 c0 Hr; try discriminate Hr; injection Hr as <- <-;
    cbn [calls]; (split;
    [ artifact_call; split;
      [ cbn [In]; repeat first [left; reflexivity | right]
      | split; [reflexivity|split; [reflexivity|sha_here]] ]
    | intros q0 o0 Hin Hm Hu; cbn [In] in Hin;
      repeat (destruct Hin as [Hin|Hin];
              [ apply pair_equal_spec in Hin; destruct Hin as [<- <-]; method_in Hm;
                lazymatch type of Hm with
                | PUT = PUT =>
                    first [ apply contents_url_inj in Hu; discriminate Hu
                          | eexists; split; [reflexivity|sha_here] ]
                | _ => discriminate Hm
                end
              | ]);
      destruct Hin ]).
Qed.

(** After round 1 the location the publisher returns is built from the
    account and the task name. *)
Lemma publish_repo_url (request : TaskRequest) (html_code : pyval)
    (w : world) (t evs : list event) (r : result (pyval * pyval)) :
  round request <> 1%Z ->
  publish request html_code w t = (evs, r) ->
  forall repo_url commit_sha, r = Ok (repo_url, commit_sha) ->
  repo_url = PyStr ("https://github.com/" ++ GITHUB_USERNAME ++ "/" ++ task request).
Proof.
  intros Hround H. unfold publish in H.
  replace (round request =? 1)%Z with false in H by (symmetry; now apply Z.eqb_neq).
  unfold update_github_repo, update_file_in_repo, add_file_to_repo in H.
  run_all H; intros u0 c0 Hr; try discriminate Hr; now injection Hr as <- <-.
Qed.

(** The calls of the publisher carry no timeout and none of them asks for
    the pages of a repository. *)
Lemma publish_calls (request : TaskRequest) (html_code : pyval)
    (w : world) (t evs : list event) (r : result (pyval * pyval)) :
  publish request html_code w t = (evs, r) ->
  forall q o, In (q, o) (calls evs) ->
    q_timeout q = None /\ forall n, q <> pages_request n.
Proof.
  intros H. unfold_publish H.
  run_all H; cbn [calls In]; intros q0 o0 Hin;
    repeat (destruct Hin as [Hin|Hin];
            [ apply pair_equal_spec in Hin; destruct Hin as [<- <-]; split; [reflexivity|]; intros n;
              lazymatch goal with
              | |- create_request _ _ <> _ => apply create_request_not_pages
              | |- _ =>
                  intros E; apply (f_equal q_method) in E; method_in E;
                  discriminate E
              end
            | ]);
    destruct Hin.
Qed.

Lemma generate_app_with_groq_run (b : string) (c : list string)
    (a : option (list Attachment)) (w : world) (t evs : list event)
    (r : result pyval) :
  generate_app_with_groq b c a w t = (evs, r) ->
  exists o, evs = [EvHttp (groq_request b c a) o].
Proof.
  intros H. unfold generate_app_with_groq in H.
  run_all H; eexists; reflexivity.
Qed.

(** ** The enabler of the pages and the calls of the notifier *)

Lemma enable_github_pages_run (repo_name : string) (w : world) (t : list event) :
  enable_github_pages repo_name w t =
  match w t (pages_request repo_name) with
  | Responded resp =>
      ((EvHttp (pages_request repo_name) (Responded resp) ::
        (if ((status_code resp =? 201) || (status_code resp =? 409))%Z
         then []
         else [EvPrint ("Warning: GitHub Pages response: " ++
                        Str.of_int (status_code resp))]) ++
        [EvSleep 5])%list,
       Ok tt)
  | Failed msg =>
      ([EvHttp (pages_request repo_name) (Failed msg)],
       Raise (RequestException msg))
  end.
Proof.
  unfold enable_github_pages, bind, requests, print, sleep, ret.
  destruct (w t (pages_request repo_name)) as [resp|msg]; [|reflexivity].
  now destruct ((status_code resp =? 201) || (status_code resp =? 409))%Z.
Qed.

Lemma enable_pages_on_first_round_run (request : TaskRequest) (w : world)
    (t evs : list event) (r : result unit) :
  enable_pages_on_first_round request w t = (evs, r) ->
  (round request <> 1%Z /\ evs = [] /\ r = Ok tt) \/
  (round request = 1%Z /\
   exists o rest,
     evs = EvPrint "Enabling GitHub Pages..." ::
           EvHttp (pages_request (task request)) o :: rest /\
     calls rest = [] /\
     match o with
     | Responded _ => r = Ok tt
     | Failed msg => r = Raise (RequestException msg)
     end).
Proof.
  unfold enable_pages_on_first_round.
  destruct (round request =? 1)%Z eqn:Hround.
  - apply Z.eqb_eq in Hround. intros H. right. split; [exact Hround|].
    unfold bind at 1, print in H. rewrite enable_github_pages_run in H.
    destruct (w _ (pages_request (task request))) as [resp|msg];
      apply pair_equal_spec in H; destruct H as [<- <-]; cbn [app].
    + eexists; eexists; split; [reflexivity|]. split; [|reflexivity].
      now destruct ((status_code resp =? 201) || (status_code resp =? 409))%Z.
    + eexists; eexists; split; [reflexivity|]. now split.
  - apply Z.eqb_neq in Hround. intros H. left.
    unfold ret in H. apply pair_equal_spec in H. destruct H as [<- <-].
    now split.
Qed.

Lemma calls_io_events (evs : list event) : calls (io_events evs) = calls evs.
Proof.
  unfold io_events.
  induction evs as [|[q o| |] evs IH]; cbn [filter calls];
    [reflexivity| |assumption..].
  now rewrite IH.
Qed.

Lemma calls_schedule (q : http_call) (delays : list Z) (os : list outcome) :
  forall q' o, In (q', o) (calls (schedule q delays os)) -> q' = q.
Proof.
  revert os. induction delays as [|d delays IH]; intros [|o1 os] q' o;
    cbn [schedule calls In]; try tauto.
  rewrite calls_app. intros Hin. apply in_app_or in Hin as [Hin|Hin].
  - destruct (0 <? d)%Z; destruct Hin.
  - cbn [calls In] in Hin. destruct Hin as [E|Hin]; [now injection E|].
    exact (IH os q' o Hin).
Qed.

(** The notifier never raises; all its calls are the notification, and
    there is one at least. *)
Lemma notify_evaluation_calls (request : TaskRequest) (repo_url commit_sha : pyval)
    (pages_url : string) (w : world) (t evs : list event) (r : result unit) :
  notify_evaluation request repo_url commit_sha pages_url w t = (evs, r) ->
  r = Ok tt /\
  (forall q o, In (q, o) (calls evs) ->
     q = notify_request request repo_url commit_sha pages_url) /\
  exists o, In (notify_request request repo_url commit_sha pages_url, o) (calls evs).
Proof.
  intros H. unfold notify_evaluation in H.
  destruct (notify_loop_run _ _ w t evs r H)
    as (os & Hr & Hio & _ & Hne & _).
  split; [exact Hr|].
  rewrite <- calls_io_events, Hio. split.
  - apply calls_schedule.
  - destruct os as [|o os]; [now destruct Hne|].
    exists o. cbn. now left.
Qed.

(** ** The handler *)

Lemma print_inv (line : string) (w : world) (t evs : list event) (r : result unit) :
  print line w t = (evs, r) -> evs = [EvPrint line] /\ r = Ok tt.
Proof. unfold print. intros H. now injection H as <- <-. Qed.

(** The stages of a run of the pipeline: each one starts when the one
    before it has returned, and an exception ends the run. *)
Lemma pipeline_inv (request : TaskRequest) (w : world) (t evs : list event)
    (r : result pyval) :
  pipeline request w t = (evs, r) ->
  let p1 := EvPrint ("Received task: " ++ task request ++ ", round: " ++
                     Str.of_int (round request)) in
  let p2 := EvPrint "Generating code with Groq..." in
  exists t1 e_gen r_gen,
    generate_app_with_groq (brief request) (checks request) (attachments request)
      w t1 = (e_gen, r_gen) /\
    match r_gen with
    | Raise e => evs = (p1 :: p2 :: e_gen)%list /\ r = Raise e
    | Ok html_code =>
        exists t2 e_pub r_pub,
          publish request html_code w t2 = (e_pub, r_pub) /\
          match r_pub with
          | Raise e => evs = (p1 :: p2 :: e_gen ++ e_pub)%list /\ r = Raise e
          | Ok (repo_url, commit_sha) =>
              exists t3 e_pages r_pages,
                enable_pages_on_first_round request w t3 = (e_pages, r_pages) /\
                match r_pages with
                | Raise e =>
                    evs = (p1 :: p2 :: e_gen ++ e_pub ++ e_pages)%list /\
                    r = Raise e
                | Ok _ =>
                    exists t4 e_notify,
                      notify_evaluation request repo_url commit_sha
                        (pages_url_of (task request)) w t4 = (e_notify, Ok tt) /\
                      evs = (p1 :: p2 :: e_gen ++ e_pub ++ e_pages ++
                             EvPrint "Notifying evaluation URL..." :: e_notify ++
                             [EvPrint "Task completed successfully!"])%list /\
                      r = Ok (success_body repo_url (pages_url_of (task request))
                                commit_sha)
                end
          end
    end.
Proof.
  intros H p1 p2. unfold pipeline in H.
  apply bind_inv in H as (e1 & r1 & H1 & H).
  apply print_inv in H1 as [-> ->]. destruct H as (e2 & H & ->).
  apply bind_inv in H as (e1 & r1 & H1 & H).
  apply print_inv in H1 as [-> ->]. destruct H as (e3 & H & ->).
  apply bind_inv in H as (e_gen & r_gen & Hgen & H).
  eexists; exists e_gen, r_gen. split; [exact Hgen|].
  destruct r_gen as [html_code|e]; [|destruct H as [-> ->]; now split].
  destruct H as (e4 & H & ->).
  apply bind_inv in H as (e_pub & r_pub & Hpub & H).
  eexists; exists e_pub, r_pub. split; [exact Hpub|].
  destruct r_pub as [[repo_url commit_sha]|e]; [|destruct H as [-> ->]; now split].
  destruct H as (e5 & H & ->).
  apply bind_inv in H as (e_pages & r_pages & Hpages & H).
  eexists; exists e_pages, r_pages. split; [exact Hpages|].
  destruct r_pages as [[]|e]; [|destruct H as [-> ->]; now split].
  destruct H as (e6 & H & ->).
  apply bind_inv in H as (e1 & r1 & H1 & H).
  apply print_inv in H1 as [-> ->]. destruct H as (e7 & H & ->).
  apply bind_inv in H as (e_notify & r_notify & Hnotify & H).
  destruct (notify_evaluation_calls _ _ _ _ _ _ _ _ Hnotify) as (-> & _).
  destruct H as (e8 & H & ->).
  apply bind_inv in H as (e1 & r1 & H1 & H).
  apply print_inv in H1 as [-> ->]. destruct H as (e9 & H & ->).
  unfold ret in H. injection H as <- <-.
  eexists; exists e_notify. split; [exact Hnotify|].
  split; reflexivity.
Qed.

Lemma secret_differs_false (request : TaskRequest) :
  secret_differs request = false <-> Some (secret request) = MY_SECRET.
Proof.
  unfold secret_differs. destruct MY_SECRET as [s|]; [|split; discriminate].
  rewrite negb_false_iff, String.eqb_eq. split; [now intros ->|].
  intros E. now injection E.
Qed.

(** An authorised request is answered by the pipeline, or by the error
    body made of the exception the pipeline raised. *)
Lemma receive_task_inv (request : TaskRequest) (w : world) (t evs : list event)
    (r : result pyval) :
  Some (secret request) = MY_SECRET ->
  receive_task request w t = (evs, r) ->
  (exists body, pipeline request w t = (evs, Ok body) /\ r = Ok body) \/
  (exists e evs',
     pipeline request w t = (evs', Raise e) /\
     evs = (evs' ++ [EvPrint ("Error: " ++ str_exn e)])%list /\
     r = Ok (error_body (str_exn e))).
Proof.
  intros Hs H. unfold receive_task in H.
  apply secret_differs_false in Hs. rewrite Hs in H.
  unfold try_except in H.
  destruct (pipeline request w t) as [e1 [body|e]].
  - left. exists body. now injection H as <- <-.
  - right. exists e, e1. unfold bind, print, ret in H. cbn [app] in H.
    now injection H as <- <-.
Qed.

Lemma calls_print (line : string) (evs : list event) :
  calls (EvPrint line :: evs) = calls evs.
Proof. reflexivity. Qed.

(** Brings the calls of a list of events built with [++] and [::] to the
    calls of its parts. *)
Ltac calls_norm :=
  repeat (progress cbn [calls app] || rewrite calls_app || rewrite app_nil_r);
  rewrite <- ?app_assoc; reflexivity.

(** The calls of an authorised run, stage by stage, and its answer. *)
Lemma receive_task_stages (request : TaskRequest) (w : world) (t evs : list event)
    (r : result pyval) :
  Some (secret request) = MY_SECRET ->
  receive_task request w t = (evs, r) ->
  exists t1 e_gen r_gen,
    generate_app_with_groq (brief request) (checks request) (attachments request)
      w t1 = (e_gen, r_gen) /\
    match r_gen with
    | Raise e => calls evs = calls e_gen /\ r = Ok (error_body (str_exn e))
    | Ok html_code =>
        exists t2 e_pub r_pub,
          publish request html_code w t2 = (e_pub, r_pub) /\
          match r_pub with
          | Raise e =>
              calls evs = (calls e_gen ++ calls e_pub)%list /\
              r = Ok (error_body (str_exn e))
          | Ok (repo_url, commit_sha) =>
              exists t3 e_pages r_pages,
                enable_pages_on_first_round request w t3 = (e_pages, r_pages) /\
                match r_pages with
                | Raise e =>
                    calls evs = (calls e_gen ++ calls e_pub ++ calls e_pages)%list /\
                    r = Ok (error_body (str_exn e))
                | Ok _ =>
                    exists t4 e_notify,
                      notify_evaluation request repo_url commit_sha
                        (pages_url_of (task request)) w t4 = (e_notify, Ok tt) /\
                      calls evs = (calls e_gen ++ calls e_pub ++ calls e_pages ++
                                   calls e_notify)%list /\
                      r = Ok (success_body repo_url (pages_url_of (task request))
                                commit_sha)
                end
          end
    end.
Proof.
  intros Hs H.
  destruct (receive_task_inv _ _ _ _ _ Hs H)
    as [(body & Hp & ->)|(e & evs' & Hp & -> & ->)];
    apply pipeline_inv in Hp; cbv zeta in Hp;
    destruct Hp as (t1 & e_gen & r_gen & Hgen & Hp);
    exists t1, e_gen, r_gen; (split; [exact Hgen|]).
  - (* the pipeline returned *)
    destruct r_gen as [html_code|e1]; [|now destruct Hp].
    destruct Hp as (t2 & e_pub & r_pub & Hpub & Hp).
    exists t2, e_pub, r_pub. split; [exact Hpub|].
    destruct r_pub as [[repo_url commit_sha]|e1]; [|now destruct Hp].
    destruct Hp as (t3 & e_pages & r_pages & Hpages & Hp).
    exists t3, e_pages, r_pages. split; [exact Hpages|].
    destruct r_pages as [[]|e1]; [|now destruct Hp].
    destruct Hp as (t4 & e_notify & Hnotify & -> & Hr). injection Hr as ->.
    exists t4, e_notify. split; [exact Hnotify|]. split; [|reflexivity].
    calls_norm.
  - (* the pipeline raised *)
    destruct r_gen as [html_code|e1];
      [|destruct Hp as [-> Hr]; injection Hr as ->; split; [calls_norm|reflexivity]].
    destruct Hp as (t2 & e_pub & r_pub & Hpub & Hp).
    exists t2, e_pub, r_pub. split; [exact Hpub|].
    destruct r_pub as [[repo_url commit_sha]|e1];
      [|destruct Hp as [-> Hr]; injection Hr as ->; split; [calls_norm|reflexivity]].
    destruct Hp as (t3 & e_pages & r_pages & Hpages & Hp).
    exists t3, e_pages, r_pages. split; [exact Hpages|].
    destruct r_pages as [[]|e1];
      [|destruct Hp as [-> Hr]; injection Hr as ->; split; [calls_norm|reflexivity]].
    now destruct Hp as (t4 & e_notify & Hnotify & _ & Hr).
Qed.

Lemma generate_calls (b : string) (c : list string) (a : option (list Attachment))
    (w : world) (t evs : list event) (r : result pyval) :
  generate_app_with_groq b c a w t = (evs, r) ->
  forall q o, In (q, o) (calls evs) ->
    q_method q = POST /\ q_timeout q = None /\ forall n, q <> pages_request n.
Proof.
  intros H q o Hin.
  destruct (generate_app_with_groq_run _ _ _ _ _ _ _ H) as [o' ->].
  destruct Hin as [E|[]]. injection E as <- <-.
  repeat split. intros n. apply groq_request_not_pages.
Qed.

Lemma enable_calls (request : TaskRequest) (w : world) (t evs : list event)
    (r : result unit) :
  enable_pages_on_first_round request w t = (evs, r) ->
  forall q o, In (q, o) (calls evs) ->
    q = pages_request (task request) /\ round request = 1%Z /\
    forall resp, o = Responded resp -> r = Ok tt.
Proof.
  intros H q o Hin.
  destruct (enable_pages_on_first_round_run _ _ _ _ _ H)
    as [(_ & -> & _)|(Hround & o' & rest & -> & Hrest & Hr)]; [destruct Hin|].
  cbn [calls] in Hin. rewrite Hrest in Hin.
  destruct Hin as [E|[]]. injection E as <- <-.
  repeat split; [exact Hround|]. now intros resp ->.
Qed.

Lemma notify_request_not_pages (request : TaskRequest) (u c : pyval) (p n : string) :
  notify_request request u c p <> pages_request n.
Proof. intros E. apply (f_equal q_timeout) in E. discriminate E. Qed.

Lemma error_body_status (message : string) :
  getitem (error_body message) "status" <> Ok (PyStr "success").
Proof. discriminate. Qed.

(** ** The properties of the handler *)

(** C5: a request whose secret is not the configured one is answered
    with the exception of status 401, and nothing happens: no call, no
    sleep, no line printed. *)
Theorem receive_task_wrong_secret (request : TaskRequest) (w : world)
    (t : list event) :
  Some (secret request) <> MY_SECRET ->
  receive_task request w t = ([], Raise (HTTPException 401 "Invalid secret")) /\
  http_status (snd (receive_task request w t)) = 401%Z /\
  calls (fst (receive_task request w t)) = [].
Proof.
  intros Hs. unfold receive_task.
  destruct (secret_differs request) eqn:E.
  - repeat split.
  - now apply secret_differs_false in E.
Qed.

(** C6: an authorised request is always answered with a value, hence
    with status 200: the success body when the pipeline returns, and the
    error body with the text of the exception when the pipeline raises, in
    which case the handler adds one line to what the pipeline did. *)
Theorem receive_task_answer (request : TaskRequest) (w : world) (t : list event) :
  Some (secret request) = MY_SECRET ->
  exists evs r,
    pipeline request w t = (evs, r) /\
    match r with
    | Ok body =>
        receive_task request w t = (evs, Ok body) /\
        exists repo_url commit_sha,
          body = success_body repo_url (pages_url_of (task request)) commit_sha
    | Raise e =>
        receive_task request w t =
        ((evs ++ [EvPrint ("Error: " ++ str_exn e)])%list,
         Ok (error_body (str_exn e)))
    end /\
    http_status (snd (receive_task request w t)) = 200%Z.
Proof.
  intros Hs.
  destruct (receive_task request w t) as [evs r] eqn:H.
  destruct (receive_task_inv _ _ _ _ _ Hs H)
    as [(body & Hp & ->)|(e & evs' & Hp & -> & ->)].
  - exists evs, (Ok body). repeat split; [exact Hp|].
    apply pipeline_inv in Hp. cbv zeta in Hp.
    destruct Hp as (t1 & e_gen & [html|e1] & _ & Hst); [|now destruct Hst].
    destruct Hst as (t2 & e_pub & [[u c]|e1] & _ & Hst); [|now destruct Hst].
    destruct Hst as (t3 & e_pages & [[]|e1] & _ & Hst); [|now destruct Hst].
    destruct Hst as (t4 & e_notify & _ & _ & Hr).
    exists u, c. now injection Hr.
  - exists evs', (Raise e). repeat split. exact Hp.
Qed.

(** The stages of an authorised run that ends with the success body. *)
Lemma receive_task_success (request : TaskRequest) (w : world) (t evs : list event)
    (body : pyval) :
  Some (secret request) = MY_SECRET ->
  receive_task request w t = (evs, Ok body) ->
  getitem body "status" = Ok (PyStr "success") ->
  exists t1 e_gen html_code t2 e_pub repo_url commit_sha t3 e_pages t4 e_notify,
    generate_app_with_groq (brief request) (checks request) (attachments request)
      w t1 = (e_gen, Ok html_code) /\
    publish request html_code w t2 = (e_pub, Ok (repo_url, commit_sha)) /\
    enable_pages_on_first_round request w t3 = (e_pages, Ok tt) /\
    notify_evaluation request repo_url commit_sha (pages_url_of (task request))
      w t4 = (e_notify, Ok tt) /\
    calls evs = (calls e_gen ++ calls e_pub ++ calls e_pages ++ calls e_notify)%list /\
    body = success_body repo_url (pages_url_of (task request)) commit_sha.
Proof.
  intros Hs H Hstatus.
  assert (Herr : forall m, Ok body = Ok (error_body m) -> False).
  { intros m E. injection E as ->. now apply error_body_status in Hstatus. }
  destruct (receive_task_stages _ _ _ _ _ Hs H)
    as (t1 & e_gen & [html|e1] & Hgen & Hst);
    [|destruct Hst as [_ E]; now apply Herr in E].
  destruct Hst as (t2 & e_pub & [[u c]|e1] & Hpub & Hst);
    [|destruct Hst as [_ E]; now apply Herr in E].
  destruct Hst as (t3 & e_pages & [[]|e1] & Hpages & Hst);
    [|destruct Hst as [_ E]; now apply Herr in E].
  destruct Hst as (t4 & e_notify & Hnotify & Hcalls & Hr).
  injection Hr as ->.
  now exists t1, e_gen, html, t2, e_pub, u, c, t3, e_pages, t4, e_notify.
Qed.

(** In round 1 the publisher returns once the write of LICENSE, its
    last call, is answered with status 200 or 201 and the revision of its
    commit. *)
Lemma publish_round_1_returns (request : TaskRequest) (html_code : pyval)
    (w : world) (t evs : list event) (r : result (pyval * pyval)) :
  round request = 1%Z ->
  publish request html_code w t = (evs, r) ->
  forall q resp commit_sha,
    In (q, Responded resp) (calls evs) ->
    q_method q = PUT ->
    q_url q = contents_url (task request) "LICENSE" ->
    created_or_ok resp = true ->
    commit_sha_of resp = Ok commit_sha ->
    exists published, r = Ok published.
Proof.
  intros Hround H. unfold publish in H. rewrite Hround in H.
  change (1 =? 1)%Z with true in H.
  unfold create_github_repo, add_file_to_repo in H.
  run_all H; intros q0 resp0 sha0 Hin Hm Hu Hok Hsha;
    each_call Hin ltac:(fun Hc =>
      let Eq := fresh "Eq" in let Eo := fresh "Eo" in
      destruct Hc as [Eq Eo]; subst q0; method_in Hm;
      lazymatch type of Hm with
      | PUT = PUT =>
          cbn [q_url add_request] in Hu;
          first [ (apply contents_url_inj in Hu; discriminate Hu)
                | discriminate Eo
                | (apply Responded_inj in Eo; subst resp0;
                   first [ refused_and_not
                         | (read_revision Hsha; discriminate Hsha)
                         | (eexists; reflexivity) ]) ]
      | _ => discriminate Hm
      end).
Qed.

Lemma enable_failed (request : TaskRequest) (w : world) (t evs : list event)
    (r : result unit) (n msg : string) :
  enable_pages_on_first_round request w t = (evs, r) ->
  In (pages_request n, Failed msg) (calls evs) ->
  r = Raise (RequestException msg).
Proof.
  intros H Hin.
  destruct (enable_pages_on_first_round_run _ _ _ _ _ H)
    as [(_ & -> & _)|(_ & o & rest & -> & Hrest & Hr)]; [destruct Hin|].
  cbn [calls] in Hin. rewrite Hrest in Hin.
  destruct Hin as [E|[]]. injection E as _ ->. exact Hr.
Qed.

(** C7: answered with any status, the enabler of the pages returns after
    its sleep of 5 seconds, having printed a warning unless the status is
    201 or 409; when its call gets no answer it raises the exception of the
    call, without sleeping.  In an authorised run the call that enables the
    pages is made in round 1 only, and in round 1 it is made as soon as the
    publisher has returned, that is once the write of LICENSE is answered
    with status 200 or 201 and the revision of its commit.  Once the call
    is answered, whatever the status, the handler answers with the success
    body; when it gets no answer the run ends there and the handler answers
    with the error body made of the text of the failure. *)
Theorem enable_github_pages_aborts_unanswered_only :
  (forall repo_name w t resp,
     w t (pages_request repo_name) = Responded resp ->
     enable_github_pages repo_name w t =
     ((EvHttp (pages_request repo_name) (Responded resp) ::
       (if ((status_code resp =? 201) || (status_code resp =? 409))%Z
        then []
        else [EvPrint ("Warning: GitHub Pages response: " ++
                       Str.of_int (status_code resp))]) ++
       [EvSleep 5])%list,
      Ok tt)) /\
  (forall repo_name w t msg,
     w t (pages_request repo_name) = Failed msg ->
     enable_github_pages repo_name w t =
     ([EvHttp (pages_request repo_name) (Failed msg)],
      Raise (RequestException msg))) /\
  (forall request w t,
     (round request <> 1%Z ->
      enable_pages_on_first_round request w t = ([], Ok tt)) /\
     (round request = 1%Z ->
      exists o rest,
        fst (enable_pages_on_first_round request w t) =
        EvPrint "Enabling GitHub Pages..." ::
        EvHttp (pages_request (task request)) o :: rest)) /\
  (forall request w t evs r,
     Some (secret request) = MY_SECRET ->
     receive_task request w t = (evs, r) ->
     (forall o, In (pages_request (task request), o) (calls evs) ->
        round request = 1%Z /\
        (forall resp, o = Responded resp ->
           exists repo_url commit_sha,
             r = Ok (success_body repo_url (pages_url_of (task request)) commit_sha)) /\
        (forall msg, o = Failed msg -> r = Ok (error_body msg))) /\
     (round request = 1%Z ->
      forall q resp commit_sha,
        In (q, Responded resp) (calls evs) ->
        q_method q = PUT ->
        q_url q = contents_url (task request) "LICENSE" ->
        created_or_ok resp = true ->
        commit_sha_of resp = Ok commit_sha ->
        exists o, In (pages_request (task request), o) (calls evs))).
Proof.
  split; [|split; [|split]].
  - intros repo_name w t resp H. rewrite enable_github_pages_run. now rewrite H.
  - intros repo_name w t msg H. rewrite enable_github_pages_run. now rewrite H.
  - intros request w t.
    destruct (enable_pages_on_first_round request w t) as [evs r] eqn:H.
    destruct (enable_pages_on_first_round_run _ _ _ _ _ H)
      as [(Hround & -> & ->)|(Hround & o & rest & -> & _)].
    + split; [reflexivity|]. intros E. now destruct Hround.
    + split; [intros Hne; now destruct Hne|]. intros _. now exists o, rest.
  - intros request w t evs r Hs H.
    destruct (receive_task_stages _ _ _ _ _ Hs H)
      as (t1 & e_gen & r_gen & Hgen & Hst).
    pose proof (generate_calls _ _ _ _ _ _ _ Hgen) as Cgen.
    split.
    + (* only in round 1, and what the answer of the call leads to *)
      intros o Hin.
      assert (Ngen : ~ In (pages_request (task request), o) (calls e_gen)).
      { intros Hi. apply Cgen in Hi.
        destruct Hi as (_ & _ & Hi). now apply (Hi (task request)). }
      destruct r_gen as [html|e1];
        [|destruct Hst as [Hc _]; rewrite Hc in Hin; now destruct Ngen].
      destruct Hst as (t2 & e_pub & r_pub & Hpub & Hst).
      assert (Npub : ~ In (pages_request (task request), o) (calls e_pub)).
      { intros Hi. apply (publish_calls _ _ _ _ _ _ Hpub) in Hi.
        destruct Hi as (_ & Hi). now apply (Hi (task request)). }
      destruct r_pub as [[u c]|e1].
      2:{ destruct Hst as [Hc _]. rewrite Hc in Hin.
          apply in_app_or in Hin as [Hi|Hi]; [now destruct Ngen|now destruct Npub]. }
      destruct Hst as (t3 & e_pages & r_pages & Hpages & Hst).
      pose proof (enable_calls _ _ _ _ _ Hpages (pages_request (task request)) o)
        as Hpg.
      destruct r_pages as [[]|e1].
      2:{ destruct Hst as [Hc Hr]. rewrite Hc in Hin.
          apply in_app_or in Hin as [Hi|Hi]; [now destruct Ngen|].
          apply in_app_or in Hi as [Hi|Hi]; [now destruct Npub|].
          destruct (Hpg Hi) as (_ & Hround & Hok). split; [exact Hround|]. split.
          - intros resp E. now specialize (Hok resp E).
          - intros msg E. subst o.
            pose proof (enable_failed _ _ _ _ _ _ _ Hpages Hi) as E.
            injection E as ->. exact Hr. }
      destruct Hst as (t4 & e_notify & Hnotify & Hc & ->).
      rewrite Hc in Hin.
      apply in_app_or in Hin as [Hi|Hi]; [now destruct Ngen|].
      apply in_app_or in Hi as [Hi|Hi]; [now destruct Npub|].
      apply in_app_or in Hi as [Hi|Hi].
      * destruct (Hpg Hi) as (_ & Hround & _). split; [exact Hround|]. split.
        -- intros resp _. now exists u, c.
        -- intros msg E. subst o.
           pose proof (enable_failed _ _ _ _ _ _ _ Hpages Hi) as E. discriminate E.
      * apply (notify_evaluation_calls _ _ _ _ _ _ _ _ Hnotify) in Hi.
        symmetry in Hi. now apply notify_request_not_pages in Hi.
    + (* in round 1, as soon as the publisher has returned *)
      intros Hround q resp commit_sha Hin Hm Hu Hok Hsha.
      assert (Ngen : ~ In (q, Responded resp) (calls e_gen)).
      { intros Hi. apply Cgen in Hi. destruct Hi as (Hp & _).
        rewrite Hp in Hm. discriminate Hm. }
      destruct r_gen as [html|e1];
        [|destruct Hst as [Hc _]; rewrite Hc in Hin; now destruct Ngen].
      destruct Hst as (t2 & e_pub & r_pub & Hpub & Hst).
      pose proof (publish_round_1_returns _ _ _ _ _ _ Hround Hpub
                    q resp commit_sha) as Hret.
      destruct r_pub as [[u c]|e1].
      2:{ destruct Hst as [Hc _]. rewrite Hc in Hin.
          apply in_app_or in Hin as [Hi|Hi]; [now destruct Ngen|].
          destruct (Hret Hi Hm Hu Hok Hsha) as [published E]. discriminate E. }
      destruct Hst as (t3 & e_pages & r_pages & Hpages & Hst).
      destruct (enable_pages_on_first_round_run _ _ _ _ _ Hpages)
        as [(Hne & _)|(_ & o & rest & He & _)]; [now destruct Hne|].
      exists o.
      assert (Hpg : In (pages_request (task request), o) (calls e_pages)).
      { rewrite He. cbn [calls]. now left. }
      destruct r_pages as [[]|e1].
      * destruct Hst as (t4 & e_notify & _ & Hc & _). rewrite Hc.
        apply in_or_app; right. apply in_or_app; right. apply in_or_app; now left.
      * destruct Hst as [Hc _]. rewrite Hc.
        apply in_or_app; right. apply in_or_app; now right.
Qed.

(** C8: the revision identifier the publisher returns, in round 1 and
    later, is the one of the commit that wrote index.html, the only write
    of that path.  When an authorised run ends with the success body, the
    ["commit_sha"] of the body is that identifier, and every call of the
    notifier, the only calls made with a timeout, carries the payload
    built with it. *)
Theorem commit_sha_is_artifact_revision (request : TaskRequest) :
  (forall html_code w t evs repo_url commit_sha,
     publish request html_code w t = (evs, Ok (repo_url, commit_sha)) ->
     (exists q resp,
        In (q, Responded resp) (calls evs) /\ q_method q = PUT /\
        q_url q = contents_url (task request) "index.html" /\
        commit_sha_of resp = Ok commit_sha) /\
     (forall q o, In (q, o) (calls evs) -> q_method q = PUT ->
        q_url q = contents_url (task request) "index.html" ->
        exists resp, o = Responded resp /\ commit_sha_of resp = Ok commit_sha)) /\
  (forall w t evs body,
     Some (secret request) = MY_SECRET ->
     receive_task request w t = (evs, Ok body) ->
     getitem body "status" = Ok (PyStr "success") ->
     exists repo_url commit_sha,
       body = success_body repo_url (pages_url_of (task request)) commit_sha /\
       getitem body "commit_sha" = Ok commit_sha /\
       (exists q resp,
          In (q, Responded resp) (calls evs) /\ q_method q = PUT /\
          q_url q = contents_url (task request) "index.html" /\
          commit_sha_of resp = Ok commit_sha) /\
       (forall q o, In (q, o) (calls evs) -> q_method q = PUT ->
          q_url q = contents_url (task request) "index.html" ->
          exists resp, o = Responded resp /\ commit_sha_of resp = Ok commit_sha) /\
       (forall q o, In (q, o) (calls evs) -> q_timeout q <> None ->
          q = notify_request request repo_url commit_sha
                (pages_url_of (task request)) /\
          exists payload,
            q_json q = Some payload /\
            getitem payload "commit_sha" = Ok commit_sha) /\
       (exists o,
          In (notify_request request repo_url commit_sha
                (pages_url_of (task request)), o) (calls evs))).
Proof.
  split.
  - intros html_code w t evs u c H.
    exact (publish_commit_sha _ _ _ _ _ _ H u c eq_refl).
  - intros w t evs body Hs H Hstatus.
    destruct (receive_task_success _ _ _ _ _ Hs H Hstatus)
      as (t1 & e_gen & html & t2 & e_pub & u & c & t3 & e_pages & t4 & e_notify &
          Hgen & Hpub & Hpages & Hnotify & Hcalls & ->).
    destruct (publish_commit_sha _ _ _ _ _ _ Hpub u c eq_refl)
      as ((q & resp & Hin & Hm & Hu & Hsha) & Hall).
    destruct (notify_evaluation_calls _ _ _ _ _ _ _ _ Hnotify) as (_ & Hn & o & Ho).
    exists u, c. split; [reflexivity|]. split; [reflexivity|].
    rewrite Hcalls. split; [|split; [|split]].
    + exists q, resp. repeat split; try assumption.
      apply in_or_app; right. apply in_or_app; now left.
    + intros q' o' Hi Hm' Hu'.
      apply in_app_or in Hi as [Hi|Hi].
      { apply (generate_calls _ _ _ _ _ _ _ Hgen) in Hi.
        destruct Hi as (Hp & _). rewrite Hp in Hm'. discriminate Hm'. }
      apply in_app_or in Hi as [Hi|Hi]; [now apply (Hall q' o')|].
      apply in_app_or in Hi as [Hi|Hi].
      { apply (enable_calls _ _ _ _ _ Hpages) in Hi.
        destruct Hi as (-> & _). discriminate Hm'. }
      apply Hn in Hi. subst q'. discriminate Hm'.
    + intros q' o' Hi Ht.
      assert (E : q' = notify_request request u c (pages_url_of (task request))).
      { apply in_app_or in Hi as [Hi|Hi].
        { apply (generate_calls _ _ _ _ _ _ _ Hgen) in Hi.
          destruct Hi as (_ & Hp & _). now destruct Ht. }
        apply in_app_or in Hi as [Hi|Hi].
        { apply (publish_calls _ _ _ _ _ _ Hpub) in Hi.
          destruct Hi as (Hp & _). now destruct Ht. }
        apply in_app_or in Hi as [Hi|Hi].
        { apply (enable_calls _ _ _ _ _ Hpages) in Hi.
          destruct Hi as (-> & _). now destruct Ht. }
        now apply Hn in Hi. }
      split; [exact E|]. subst q'. eexists. split; reflexivity.
    + exists o. apply in_or_app; right. apply in_or_app; right.
      apply in_or_app; now right.
Qed.

(** C10: after round 1 the location the publisher returns is the text
    ["https://github.com/SiriChandanaSykam/"] followed by the task name,
    whatever the world answers; when an authorised run ends with the
    success body, that text is the ["repo_url"] of the body and of the
    payload of every call of the notifier. *)
Theorem repo_url_after_round_1 (request : TaskRequest) :
  (1 < round request)%Z ->
  let location := PyStr ("https://github.com/SiriChandanaSykam/" ++ task request) in
  (forall html_code w t evs repo_url commit_sha,
     publish request html_code w t = (evs, Ok (repo_url, commit_sha)) ->
     repo_url = location) /\
  (forall w t evs body,
     Some (secret request) = MY_SECRET ->
     receive_task request w t = (evs, Ok body) ->
     getitem body "status" = Ok (PyStr "success") ->
     getitem body "repo_url" = Ok location /\
     (forall q o, In (q, o) (calls evs) -> q_timeout q <> None ->
        exists payload,
          q_json q = Some payload /\ getitem payload "repo_url" = Ok location) /\
     (exists q o, In (q, o) (calls evs) /\ q_timeout q <> None)).
Proof.
  intros Hround location.
  assert (Hne : round request <> 1%Z) by lia.
  split.
  - intros html_code w t evs u c H.
    exact (publish_repo_url _ _ _ _ _ _ Hne H u c eq_refl).
  - intros w t evs body Hs H Hstatus.
    destruct (receive_task_success _ _ _ _ _ Hs H Hstatus)
      as (t1 & e_gen & html & t2 & e_pub & u & c & t3 & e_pages & t4 & e_notify &
          Hgen & Hpub & Hpages & Hnotify & Hcalls & ->).
    pose proof (publish_repo_url _ _ _ _ _ _ Hne Hpub u c eq_refl) as Hu.
    change (u = location) in Hu. subst u.
    destruct (notify_evaluation_calls _ _ _ _ _ _ _ _ Hnotify) as (_ & Hn & o & Ho).
    split; [reflexivity|]. rewrite Hcalls. split.
    + intros q' o' Hi Ht.
      assert (E : q' = notify_request request location c (pages_url_of (task request))).
      { apply in_app_or in Hi as [Hi|Hi].
        { apply (generate_calls _ _ _ _ _ _ _ Hgen) in Hi.
          destruct Hi as (_ & Hp & _). now destruct Ht. }
        apply in_app_or in Hi as [Hi|Hi].
        { apply (publish_calls _ _ _ _ _ _ Hpub) in Hi.
          destruct Hi as (Hp & _). now destruct Ht. }
        apply in_app_or in Hi as [Hi|Hi].
        { apply (enable_calls _ _ _ _ _ Hpages) in Hi.
          destruct Hi as (-> & _). now destruct Ht. }
        now apply Hn in Hi. }
      subst q'. eexists. split; reflexivity.
    + eexists; exists o. split.
      * apply in_or_app; right. apply in_or_app; right.
        apply in_or_app; right. exact Ho.
      * discriminate.
Qed.

(** ** The cleaning of the generated text *)

(** C2, as the code has it: a text without a fence, and a text none of
    whose parts between fences contains ["<html"] in any case, comes back
    unchanged; otherwise the first part that contains it is taken, whether
    it lies inside a fence or not, and when this part, after the language
    tag ["html"] if it starts with it, contains neither ["html"] nor
    ["HTML"], the result is the part without the tag, stripped of the
    whitespace around it. *)
Theorem clean_code_blocks_extracts (html_code : string) :
  (Str.contains backticks html_code = false ->
   clean_code_blocks html_code = html_code) /\
  ((forall part, In part (Str.split html_code backticks) ->
      Str.contains "<html" (Str.lower part) = false) ->
   clean_code_blocks html_code = html_code) /\
  (forall before part after rest,
     Str.contains backticks html_code = true ->
     Str.split html_code backticks = (before ++ part :: after)%list ->
     (forall p, In p before -> Str.contains "<html" (Str.lower p) = false) ->
     Str.contains "<html" (Str.lower part) = true ->
     part = "html" ++ rest \/ part = rest ->
     Str.contains "html" rest = false ->
     Str.contains "HTML" rest = false ->
     clean_code_blocks html_code = Str.strip rest).
Proof.
  unfold clean_code_blocks. split; [|split].
  - now intros ->.
  - intros H. rewrite (scan_parts_none _ _ H).
    now destruct (Str.contains backticks html_code).
  - intros before part after rest -> -> Hbefore Hpart Htag Hlow Hup.
    rewrite (scan_parts_first _ _ _ _ Hbefore Hpart).
    destruct Htag as [-> | ->].
    + now rewrite (replace_leading_html _ Hlow), (replace_absent _ _ _ Hup).
    + now rewrite (replace_absent _ _ _ Hlow), (replace_absent _ _ _ Hup).
Qed.


(** ** Further properties *)

Lemma generate_app_with_groq_exact (b : string) (c : list string)
    (a : option (list Attachment)) (w : world) (t : list event) :
  generate_app_with_groq b c a w t =
  ([EvHttp (groq_request b c a) (w t (groq_request b c a))],
   generated (w t (groq_request b c a))).
Proof.
  unfold generate_app_with_groq, bind, requests, response_json, lift, ret, raise,
    generated, content_of.
  destruct (w t (groq_request b c a)) as [resp|msg]; [|reflexivity].
  destruct (body resp) as [doc|msg]; [|reflexivity].
  destruct (getitem doc "choices") as [choices|e]; [|reflexivity].
  destruct (getindex choices 0) as [choice|e]; [|reflexivity].
  destruct (getitem choice "message") as [message|e]; [|reflexivity].
  destruct (getitem message "content") as [html_code|e]; reflexivity.
Qed.

(** X1: the generation makes one call and never looks at the status of
    the answer: what it returns is read off the body alone, so an answer
    with an error status and a well-formed body is taken.  An answer that
    is no JSON, has no ["choices"], has an empty list of choices or a
    content that is [null] makes it raise, the exception of the library or
    [KeyError], [IndexError], [TypeError]. *)
Theorem generation_ignores_status (b : string) (c : list string)
    (a : option (list Attachment)) (w : world) (t : list event) (resp : response) :
  w t (groq_request b c a) = Responded resp ->
  generate_app_with_groq b c a w t =
  ([EvHttp (groq_request b c a) (Responded resp)], content_of (body resp)) /\
  (forall msg, body resp = NotJson msg ->
     content_of (body resp) = Raise (RequestException msg)) /\
  (forall d, body resp = Json (PyDict d) -> lookup "choices" d = None ->
     content_of (body resp) = Raise (Builtin (KeyError (PyStr "choices")))) /\
  (forall d, body resp = Json (PyDict d) -> lookup "choices" d = Some (PyList []) ->
     content_of (body resp) = Raise (Builtin (IndexError (PyList [])))) /\
  (forall d d1 d2 rest,
     body resp = Json (PyDict d) ->
     lookup "choices" d = Some (PyList (PyDict d1 :: rest)) ->
     lookup "message" d1 = Some (PyDict d2) ->
     (lookup "content" d2 = Some PyNone ->
      content_of (body resp) = Raise (Builtin (TypeError PyNone))) /\
     (forall s, lookup "content" d2 = Some (PyStr s) ->
      content_of (body resp) = Ok (PyStr (clean_code_blocks s)))).
Proof.
  intros H. rewrite generate_app_with_groq_exact, H. cbn [generated].
  split; [reflexivity|]. split; [now intros msg ->|].
  split; [intros d -> Hd; cbn; now rewrite Hd|].
  split; [intros d -> Hd; cbn; now rewrite Hd|].
  intros d d1 d2 rest -> Hd Hd1.
  assert (E1 : getitem (PyDict d) "choices" = Ok (PyList (PyDict d1 :: rest)))
    by (unfold getitem; now rewrite Hd).
  assert (E2 : getitem (PyDict d1) "message" = Ok (PyDict d2))
    by (unfold getitem; now rewrite Hd1).
  unfold content_of. rewrite E1. cbn [getindex nth_error]. rewrite E2.
  split; [intros Hc|intros s Hc]; unfold getitem; now rewrite Hc.
Qed.

Lemma opening_lines_run (request : TaskRequest) (w : world) (t evs : list event)
    (r : result pyval) :
  pipeline request w t = (evs, r) ->
  exists e_gen rest,
    generate_app_with_groq (brief request) (checks request) (attachments request)
      w (t ++ opening_lines request)%list = (e_gen, generated (w (t ++ opening_lines request)%list
        (groq_request (brief request) (checks request) (attachments request)))) /\
    evs = (opening_lines request ++ e_gen ++ rest)%list /\
    (forall e, generated (w (t ++ opening_lines request)%list
                 (groq_request (brief request) (checks request) (attachments request)))
               = Raise e -> rest = [] /\ r = Raise e).
Proof.
  intros H. unfold pipeline in H.
  apply bind_inv in H as (e1 & r1 & H1 & H).
  apply print_inv in H1 as [-> ->]. destruct H as (e2 & H & ->).
  apply bind_inv in H as (e1 & r1 & H1 & H).
  apply print_inv in H1 as [-> ->]. destruct H as (e3 & H & ->).
  apply bind_inv in H as (e_gen & r_gen & Hgen & H).
  rewrite <- app_assoc in Hgen. cbn [app] in Hgen.
  change [EvPrint ("Received task: " ++ task request ++ ", round: " ++
                   Str.of_int (round request));
          EvPrint "Generating code with Groq..."]
    with (opening_lines request) in Hgen.
  pose proof Hgen as Hex. rewrite generate_app_with_groq_exact in Hex.
  apply pair_equal_spec in Hex. destruct Hex as [_ Hr]. rewrite Hr.
  destruct r_gen as [html|e0].
  - destruct H as (e4 & _ & ->). exists e_gen, e4.
    split; [exact Hgen|]. split; [reflexivity|]. discriminate.
  - destruct H as [-> ->]. exists e_gen, []. split; [exact Hgen|].
    split; [now rewrite app_nil_r|]. intros e E. now injection E as ->.
Qed.

(** X2: when the generation fails, because its call gets no answer or
    because the answer cannot be read, an authorised request ends there:
    the events are the two opening lines, the call of the generation and
    the line of the error, no other call is made, and the answer is the
    error body with the text of the exception. *)
Theorem generation_failure_ends_the_run (request : TaskRequest) (w : world)
    (t : list event) (e : exn) :
  let q := groq_request (brief request) (checks request) (attachments request) in
  let o := w (t ++ opening_lines request)%list q in
  Some (secret request) = MY_SECRET ->
  generated o = Raise e ->
  receive_task request w t =
  ((opening_lines request ++ [EvHttp q o; EvPrint ("Error: " ++ str_exn e)])%list,
   Ok (error_body (str_exn e))).
Proof.
  intros q o Hs He.
  destruct (receive_task request w t) as [evs r] eqn:H.
  destruct (receive_task_inv _ _ _ _ _ Hs H)
    as [(body & Hp & ->)|(e' & evs' & Hp & -> & ->)];
    destruct (opening_lines_run _ _ _ _ _ Hp) as (e_gen & rest & Hgen & -> & Hfail);
    destruct (Hfail e He) as [-> Hr]; [discriminate Hr|].
  injection Hr as ->.
  rewrite generate_app_with_groq_exact in Hgen.
  apply pair_equal_spec in Hgen. destruct Hgen as [<- _].
  now rewrite app_nil_r, <- app_assoc.
Qed.

Lemma groq_request_not_create (b : string) (c : list string)
    (a : option (list Attachment)) (n d : string) :
  groq_request b c a <> create_request n d.
Proof.
  intros E. apply (f_equal q_url) in E.
  cbn [q_url groq_request create_request] in E. discriminate E.
Qed.

Lemma notify_request_not_create (request : TaskRequest) (u c : pyval) (p n d : string) :
  notify_request request u c p <> create_request n d.
Proof. intros E. apply (f_equal q_timeout) in E. discriminate E. Qed.

Lemma publish_creation_refused (request : TaskRequest) (html_code : pyval)
    (w : world) (t evs : list event) (r : result (pyval * pyval)) :
  round request = 1%Z ->
  publish request html_code w t = (evs, r) ->
  forall resp,
    In (create_request (task request) (brief request), Responded resp) (calls evs) ->
    status_code resp <> 201%Z ->
    calls evs = [(create_request (task request) (brief request), Responded resp)] /\
    r = Raise (Exception ("Failed to create repo: " ++ text resp)).
Proof.
  intros Hround H. unfold publish in H. rewrite Hround in H.
  change (1 =? 1)%Z with true in H.
  unfold create_github_repo, add_file_to_repo in H.
  run_all H; intros resp Hin Hne;
    each_call Hin ltac:(fun Hc =>
      let Eq := fresh "Eq" in let Eo := fresh "Eo" in
      destruct Hc as [Eq Eo];
      first [ discriminate Eo
            | (apply (f_equal q_method) in Eq; method_in Eq; discriminate Eq)
            | (injection Eo as <-;
               lazymatch goal with
               | H : (status_code ?g =? 201)%Z = true |- _ =>
                   exfalso; apply Hne; apply Z.eqb_eq; exact H
               | |- _ => split; reflexivity
               end) ]).
Qed.

(** X3: in round 1, when the creation of the repository is answered with
    a status other than 201 (the repository exists already, say), an
    authorised request ends there: the calls are the generation and the
    creation, nothing is written, and the answer is the error body with
    ["Failed to create repo: "] and the text of the response. *)
Theorem creation_refused_ends_the_run (request : TaskRequest) (w : world)
    (t evs : list event) (r : result pyval) (resp : response) :
  Some (secret request) = MY_SECRET ->
  round request = 1%Z ->
  receive_task request w t = (evs, r) ->
  In (create_request (task request) (brief request), Responded resp) (calls evs) ->
  status_code resp <> 201%Z ->
  r = Ok (error_body ("Failed to create repo: " ++ text resp)) /\
  exists o,
    calls evs =
    [(groq_request (brief request) (checks request) (attachments request), o);
     (create_request (task request) (brief request), Responded resp)].
Proof.
  intros Hs Hround H Hin Hne.
  destruct (receive_task_stages _ _ _ _ _ Hs H) as (t1 & e_gen & r_gen & Hgen & Hst).
  destruct (generate_app_with_groq_run _ _ _ _ _ _ _ Hgen) as [o ->].
  assert (Ngen : ~ In (create_request (task request) (brief request), Responded resp)
                   (calls [EvHttp (groq_request (brief request) (checks request)
                                     (attachments request)) o])).
  { intros [E|[]]. apply pair_equal_spec in E. destruct E as [E _].
    now apply groq_request_not_create in E. }
  destruct r_gen as [html|e1];
    [|destruct Hst as [Hc _]; rewrite Hc in Hin; now destruct Ngen].
  destruct Hst as (t2 & e_pub & r_pub & Hpub & Hst).
  pose proof (publish_creation_refused _ _ _ _ _ _ Hround Hpub resp) as Hrefused.
  destruct r_pub as [[u c]|e1].
  - exfalso.
    destruct Hst as (t3 & e_pages & r_pages & Hpages & Hst).
    assert (Npages : ~ In (create_request (task request) (brief request),
                           Responded resp) (calls e_pages)).
    { intros Hi. apply (enable_calls _ _ _ _ _ Hpages) in Hi.
      destruct Hi as (E & _). now apply create_request_not_pages in E. }
    destruct r_pages as [[]|e1].
    + destruct Hst as (t4 & e_notify & Hnotify & Hc & _). rewrite Hc in Hin.
      apply in_app_or in Hin as [Hi|Hi]; [now destruct Ngen|].
      apply in_app_or in Hi as [Hi|Hi];
        [destruct (Hrefused Hi Hne) as [_ E]; discriminate E|].
      apply in_app_or in Hi as [Hi|Hi]; [now destruct Npages|].
      apply (notify_evaluation_calls _ _ _ _ _ _ _ _ Hnotify) in Hi.
      symmetry in Hi. now apply notify_request_not_create in Hi.
    + destruct Hst as [Hc _]. rewrite Hc in Hin.
      apply in_app_or in Hin as [Hi|Hi]; [now destruct Ngen|].
      apply in_app_or in Hi as [Hi|Hi];
        [destruct (Hrefused Hi Hne) as [_ E]; discriminate E|].
      now destruct Npages.
  - destruct Hst as [Hc ->]. rewrite Hc in Hin |- *.
    apply in_app_or in Hin as [Hi|Hi]; [now destruct Ngen|].
    destruct (Hrefused Hi Hne) as [-> E]. injection E as ->.
    split; [reflexivity|]. now exists o.
Qed.

Ltac last_call :=
  first [ exists []; reflexivity
        | eexists [_]; reflexivity
        | eexists [_; _]; reflexivity
        | eexists [_; _; _]; reflexivity ].

Ltac refused_verb :=
  lazymatch goal with
  | |- exists verb path, _ /\ q_url (add_request _ ?p _ _) = _ /\ _ =>
      exists "add", p; split; [now left|]
  | |- exists verb path, _ /\ q_url (update_request _ ?p _ _ _) = _ /\ _ =>
      exists "update", p; split; [now right|]
  end;
  split; reflexivity.

(** X4: a write answered with a status other than 200 and 201 ends the
    publisher at once: it is its last call, nothing is retried or undone,
    and the exception raised names the path, ["Failed to add "] or
    ["Failed to update "], the path, and the text of the response. *)
Theorem refused_write_ends_publish (request : TaskRequest) (html_code : pyval)
    (w : world) (t evs : list event) (r : result (pyval * pyval))
    (q : http_call) (resp : response) :
  publish request html_code w t = (evs, r) ->
  In (q, Responded resp) (calls evs) ->
  q_method q = PUT ->
  created_or_ok resp = false ->
  (exists pre, calls evs = (pre ++ [(q, Responded resp)])%list) /\
  exists verb path,
    (verb = "add" \/ verb = "update") /\
    q_url q = contents_url (task request) path /\
    r = Raise (Exception ("Failed to " ++ verb ++ " " ++ path ++ ": " ++ text resp)).
Proof.
  intros H. unfold_publish H.
  run_all H; intros Hin Hm Hok;
    each_call Hin ltac:(fun Hc =>
      let Eq := fresh "Eq" in let Eo := fresh "Eo" in
      destruct Hc as [Eq Eo];
      first [ discriminate Eo
            | (subst q; method_in Hm; discriminate Hm)
            | (injection Eo as <-; congruence)
            | (subst q; injection Eo as <-; cbn [calls];
               split; [last_call|refused_verb]) ]).
Qed.

(** X5: after round 1, when a read is answered with status 200 and a body
    from which no ["sha"] can be taken (no JSON, a list, a dict without the
    key), the publisher raises the exception of that lookup and stops: the
    read is its last call and the document is not written. *)
Theorem unreadable_revision_ends_publish (request : TaskRequest) (html_code : pyval)
    (w : world) (t evs : list event) (r : result (pyval * pyval))
    (q : http_call) (g : response) (e : exn) :
  publish request html_code w t = (evs, r) ->
  In (q, Responded g) (calls evs) ->
  q_method q = GET ->
  status_code g = 200%Z ->
  revision_of g = Raise e ->
  r = Raise e /\ exists pre, calls evs = (pre ++ [(q, Responded g)])%list.
Proof.
  intros H. unfold_publish H.
  run_all H; intros Hin Hm Hst Hrev;
    each_call Hin ltac:(fun Hc =>
      let Eq := fresh "Eq" in let Eo := fresh "Eo" in
      destruct Hc as [Eq Eo];
      first [ discriminate Eo
            | (subst q; method_in Hm; discriminate Hm)
            | (injection Eo as <-;
               match goal with
               | Hb : (status_code ?x =? 200)%Z = false,
                 Hs : status_code ?x = 200%Z |- _ =>
                   rewrite Hs in Hb; discriminate Hb
               end)
            | (injection Eo as <-; read_revision Hrev; discriminate Hrev)
            | (subst q; injection Eo as <-; read_revision Hrev;
               injection Hrev as <-; cbn [calls]; split; [reflexivity|last_call]) ]).
Qed.

(** X6: a content that is no text (a list or a dict, which the cleaning
    lets through) is never written: the publisher raises, index.html and
    LICENSE are not written, and at most README.md is, in round 1, where the
    repository is then left with that one document. *)
Theorem non_text_content_is_never_written (request : TaskRequest) (html_code : pyval)
    (w : world) (t evs : list event) (r : result (pyval * pyval)) (e : exn) :
  encode_content html_code = Raise e ->
  publish request html_code w t = (evs, r) ->
  (exists e', r = Raise e') /\
  (written_urls evs = [] \/
   (round request = 1%Z /\
    written_urls evs = [contents_url (task request) "README.md"])).
Proof.
  intros He H. unfold publish in H.
  destruct (round request =? 1)%Z eqn:Hround;
    [apply Z.eqb_eq in Hround|];
    unfold create_github_repo, update_github_repo, update_file_in_repo,
      add_file_to_repo in H;
    run_all H; try congruence;
    (split; [eexists; reflexivity|]);
    cbn [written_urls q_method q_url add_request update_request create_request
         get_request];
    first [left; reflexivity | right; split; [exact Hround|reflexivity]].
Qed.

(** X7: after round 1 the README.md written is the one of round 2 and the
    commit message is ["Update README for round 2"], whatever the round of
    the request is, the third or a later one too. *)
Theorem later_rounds_write_round_2 (request : TaskRequest) (html_code : pyval)
    (w : world) (t evs : list event) (r : result (pyval * pyval))
    (q : http_call) (o : outcome) :
  round request <> 1%Z ->
  publish request html_code w t = (evs, r) ->
  In (q, o) (calls evs) ->
  q_method q = PUT ->
  q_url q = contents_url (task request) "README.md" ->
  exists d,
    q_json q = Some (PyDict d) /\
    lookup "content" d =
    Some (PyStr (Str.b64encode
                   (Str.encode (generate_readme (task request) (brief request) 2)))) /\
    lookup "message" d = Some (PyStr "Update README for round 2").
Proof.
  intros Hround H. unfold publish in H.
  replace (round request =? 1)%Z with false in H by (symmetry; now apply Z.eqb_neq).
  unfold update_github_repo, update_file_in_repo, add_file_to_repo in H.
  run_all H; intros Hin Hm Hu;
    each_call Hin ltac:(fun Hc =>
      let Eq := fresh "Eq" in let Eo := fresh "Eo" in
      destruct Hc as [Eq Eo]; subst q; method_in Hm;
      lazymatch type of Hm with
      | PUT = PUT =>
          first [ (apply contents_url_inj in Hu; discriminate Hu)
                | (eexists; split; [reflexivity|]; split; reflexivity) ]
      | _ => discriminate Hm
      end).
Qed.

Lemma contents_url_github (repo_name file_path : string) :
  prefix "https://api.github.com/" (contents_url repo_name file_path) = true.
Proof. unfold contents_url. simpl. reflexivity. Qed.


Lemma publish_destinations (request : TaskRequest) (html_code : pyval)
    (w : world) (t evs : list event) (r : result (pyval * pyval)) :
  publish request html_code w t = (evs, r) ->
  forall q o, In (q, o) (calls evs) ->
    q_headers q = github_headers /\
    prefix "https://api.github.com/" (q_url q) = true.
Proof.
  intros H. unfold_publish H.
  run_all H; intros q o Hin;
    each_call Hin ltac:(fun Hc =>
      let Eq := fresh "Eq" in
      destruct Hc as [Eq _]; subst q; split; [reflexivity|];
      cbn [q_url add_request update_request get_request create_request];
      lazymatch goal with
      | |- prefix _ (contents_url _ _) = true => apply contents_url_github
      | |- _ => reflexivity
      end).
Qed.

Lemma publish_content (request : TaskRequest) (html_code : pyval)
    (w : world) (t evs : list event) (r : result (pyval * pyval)) :
  publish request html_code w t = (evs, r) ->
  forall q o, In (q, o) (calls evs) -> q_method q = PUT ->
    q_url q = contents_url (task request) "index.html" ->
    exists enc d,
      encode_content html_code = Ok enc /\
      q_json q = Some (PyDict d) /\ lookup "content" d = Some (PyStr enc).
Proof.
  intros H. unfold_publish H.
  run_all H; intros q o Hin Hm Hu;
    each_call Hin ltac:(fun Hc =>
      let Eq := fresh "Eq" in
      destruct Hc as [Eq _]; subst q; method_in Hm;
      lazymatch type of Hm with
      | PUT = PUT =>
          first [ (apply contents_url_inj in Hu; discriminate Hu)
                | (eexists; eexists; split; [reflexivity|]; split; reflexivity) ]
      | _ => discriminate Hm
      end).
Qed.

(** Every call of an authorised run is a call of one of its four stages. *)
Lemma receive_task_call_stage (request : TaskRequest) (w : world) (t evs : list event)
    (r : result pyval) (c : http_call * outcome) :
  Some (secret request) = MY_SECRET ->
  receive_task request w t = (evs, r) ->
  In c (calls evs) ->
  (exists t1 e r',
     generate_app_with_groq (brief request) (checks request) (attachments request)
       w t1 = (e, r') /\ In c (calls e)) \/
  (exists html_code t2 e r',
     publish request html_code w t2 = (e, r') /\ In c (calls e)) \/
  (exists t3 e r',
     enable_pages_on_first_round request w t3 = (e, r') /\ In c (calls e)) \/
  (exists u s t4 e,
     notify_evaluation request u s (pages_url_of (task request)) w t4 = (e, Ok tt) /\
     In c (calls e)).
Proof.
  intros Hs H Hin.
  destruct (receive_task_stages _ _ _ _ _ Hs H) as (t1 & e_gen & r_gen & Hgen & Hst).
  assert (Fgen : In c (calls e_gen) ->
            exists t1 e r',
              generate_app_with_groq (brief request) (checks request)
                (attachments request) w t1 = (e, r') /\ In c (calls e))
    by (intros Hi; now exists t1, e_gen, r_gen).
  destruct r_gen as [html|e1];
    [|destruct Hst as [Hc _]; rewrite Hc in Hin; left; now apply Fgen].
  destruct Hst as (t2 & e_pub & r_pub & Hpub & Hst).
  assert (Fpub : In c (calls e_pub) ->
            exists html_code t2 e r',
              publish request html_code w t2 = (e, r') /\ In c (calls e))
    by (intros Hi; now exists html, t2, e_pub, r_pub).
  destruct r_pub as [[u s]|e1].
  2:{ destruct Hst as [Hc _]. rewrite Hc in Hin.
      apply in_app_or in Hin as [Hi|Hi]; [left; now apply Fgen|].
      right; left; now apply Fpub. }
  destruct Hst as (t3 & e_pages & r_pages & Hpages & Hst).
  assert (Fpages : In c (calls e_pages) ->
            exists t3 e r',
              enable_pages_on_first_round request w t3 = (e, r') /\ In c (calls e))
    by (intros Hi; now exists t3, e_pages, r_pages).
  destruct r_pages as [[]|e1].
  2:{ destruct Hst as [Hc _]. rewrite Hc in Hin.
      apply in_app_or in Hin as [Hi|Hi]; [left; now apply Fgen|].
      apply in_app_or in Hi as [Hi|Hi]; [right; left; now apply Fpub|].
      right; right; left; now apply Fpages. }
  destruct Hst as (t4 & e_notify & Hnotify & Hc & _). rewrite Hc in Hin.
  apply in_app_or in Hin as [Hi|Hi]; [left; now apply Fgen|].
  apply in_app_or in Hi as [Hi|Hi]; [right; left; now apply Fpub|].
  apply in_app_or in Hi as [Hi|Hi]; [right; right; left; now apply Fpages|].
  right; right; right. now exists u, s, t4, e_notify.
Qed.

(** A request that is not authorised makes no call. *)
Lemma receive_task_unauthorised (request : TaskRequest) (w : world)
    (t evs : list event) (r : result pyval) :
  secret_differs request = true ->
  receive_task request w t = (evs, r) -> evs = [].
Proof.
  intros E H. unfold receive_task in H. rewrite E in H.
  unfold raise in H. now injection H as <- _.
Qed.


(** X9: when the call that enables the pages gets no answer, an authorised
    request ends with the error body made of the text of that failure,
    although the repository is published by then; no notification is sent,
    as no call of the run carries a timeout. *)
Theorem pages_without_answer_ends_the_run (request : TaskRequest) (w : world)
    (t evs : list event) (r : result pyval) (msg : string) :
  Some (secret request) = MY_SECRET ->
  receive_task request w t = (evs, r) ->
  In (pages_request (task request), Failed msg) (calls evs) ->
  r = Ok (error_body msg) /\
  (forall q o, In (q, o) (calls evs) -> q_timeout q = None) /\
  (forall u s o,
     ~ In (notify_request request u s (pages_url_of (task request)), o) (calls evs)).
Proof.
  intros Hs H Hin.
  assert (Hmain : r = Ok (error_body msg) /\
                  forall q o, In (q, o) (calls evs) -> q_timeout q = None).
  { destruct (receive_task_stages _ _ _ _ _ Hs H) as (t1 & e_gen & r_gen & Hgen & Hst).
    assert (Ngen : forall q o, In (q, o) (calls e_gen) ->
              q_timeout q = None /\ forall n, q <> pages_request n).
    { intros q o Hi. now destruct (generate_calls _ _ _ _ _ _ _ Hgen _ _ Hi) as (_ & ? & ?). }
    destruct r_gen as [html|e1].
    2:{ destruct Hst as [Hc _]. rewrite Hc in Hin.
        destruct (Ngen _ _ Hin) as [_ Hn]. now destruct (Hn (task request)). }
    destruct Hst as (t2 & e_pub & r_pub & Hpub & Hst).
    pose proof (publish_calls _ _ _ _ _ _ Hpub) as Npub.
    destruct r_pub as [[u s]|e1].
    2:{ destruct Hst as [Hc _]. rewrite Hc in Hin.
        apply in_app_or in Hin as [Hi|Hi].
        - destruct (Ngen _ _ Hi) as [_ Hn]. now destruct (Hn (task request)).
        - destruct (Npub _ _ Hi) as [_ Hn]. now destruct (Hn (task request)). }
    destruct Hst as (t3 & e_pages & r_pages & Hpages & Hst).
    pose proof (enable_failed _ _ _ _ _ (task request) msg Hpages) as Hfail.
    destruct r_pages as [[]|e1].
    - exfalso. destruct Hst as (t4 & e_notify & Hnotify & Hc & _). rewrite Hc in Hin.
      apply in_app_or in Hin as [Hi|Hi].
      { destruct (Ngen _ _ Hi) as [_ Hn]. now destruct (Hn (task request)). }
      apply in_app_or in Hi as [Hi|Hi].
      { destruct (Npub _ _ Hi) as [_ Hn]. now destruct (Hn (task request)). }
      apply in_app_or in Hi as [Hi|Hi]; [specialize (Hfail Hi); discriminate Hfail|].
      apply (notify_evaluation_calls _ _ _ _ _ _ _ _ Hnotify) in Hi.
      symmetry in Hi. now apply notify_request_not_pages in Hi.
    - destruct Hst as [Hc ->]. rewrite Hc in Hin |- *.
      assert (Hi : In (pages_request (task request), Failed msg) (calls e_pages)).
      { apply in_app_or in Hin as [Hi|Hi].
        { destruct (Ngen _ _ Hi) as [_ Hn]. now destruct (Hn (task request)). }
        apply in_app_or in Hi as [Hi|Hi]; [|exact Hi].
        destruct (Npub _ _ Hi) as [_ Hn]. now destruct (Hn (task request)). }
      specialize (Hfail Hi). injection Hfail as ->. split; [reflexivity|].
      intros q o Hq.
      apply in_app_or in Hq as [Hq|Hq]; [now apply (Ngen _ _ Hq)|].
      apply in_app_or in Hq as [Hq|Hq]; [now apply (Npub _ _ Hq)|].
      apply (enable_calls _ _ _ _ _ Hpages) in Hq. now destruct Hq as (-> & _). }
  destruct Hmain as [Hr Ht]. split; [exact Hr|]. split; [exact Ht|].
  intros u s o Hi. apply Ht in Hi. discriminate Hi.
Qed.

(** X10: the calls of the handler go to three places only: the one call
    of the generation; calls to ["https://api.github.com/"], with the
    headers of the hosting platform and no timeout; the notification, to
    the evaluation URL, with the one header ["Content-Type"].  So the
    header that carries the token of the hosting platform is sent to
    ["https://api.github.com/"] only, never to the evaluation URL. *)
Theorem calls_go_to_three_places (request : TaskRequest) (w : world)
    (t evs : list event) (r : result pyval) (q : http_call) (o : outcome) :
  receive_task request w t = (evs, r) ->
  In (q, o) (calls evs) ->
  (q = groq_request (brief request) (checks request) (attachments request) \/
   (q_headers q = github_headers /\
    prefix "https://api.github.com/" (q_url q) = true /\ q_timeout q = None) \/
   (exists u s, q = notify_request request u s (pages_url_of (task request)))) /\
  (In ("Authorization", "token " ++ fmt GITHUB_TOKEN) (q_headers q) ->
   prefix "https://api.github.com/" (q_url q) = true).
Proof.
  intros H Hin.
  destruct (secret_differs request) eqn:E.
  { rewrite (receive_task_unauthorised _ _ _ _ _ E H) in Hin. destruct Hin. }
  apply secret_differs_false in E.
  destruct (receive_task_call_stage _ _ _ _ _ _ E H Hin)
    as [(t1 & e & r' & Hrun & Hi)|[(html & t2 & e & r' & Hrun & Hi)|
        [(t3 & e & r' & Hrun & Hi)|(u & s & t4 & e & Hrun & Hi)]]].
  - destruct (generate_app_with_groq_run _ _ _ _ _ _ _ Hrun) as [o' ->].
    destruct Hi as [Ei|[]]. injection Ei as <- _. split; [now left|].
    cbn [q_headers groq_request In]. intros [Eh|[Eh|[]]]; discriminate Eh.
  - destruct (publish_destinations _ _ _ _ _ _ Hrun _ _ Hi) as [Hh Hu].
    destruct (publish_calls _ _ _ _ _ _ Hrun _ _ Hi) as [Ht _].
    split; [right; left; now repeat split|]. intros _. exact Hu.
  - apply (enable_calls _ _ _ _ _ Hrun) in Hi. destruct Hi as (-> & _).
    split; [right; left; now repeat split|]. intros _. reflexivity.
  - apply (notify_evaluation_calls _ _ _ _ _ _ _ _ Hrun) in Hi. subst q.
    split; [right; right; now exists u, s|].
    cbn [q_headers notify_request In]. intros [Eh|[]]. discriminate Eh.
Qed.

Lemma total_sleep_app (a b : list event) :
  total_sleep (a ++ b) = (total_sleep a + total_sleep b)%Z.
Proof.
  induction a as [|[q o|n|l] a IH]; cbn [app total_sleep]; [reflexivity| | |];
    rewrite IH; lia.
Qed.

Lemma total_sleep_io_events (evs : list event) :
  total_sleep (io_events evs) = total_sleep evs.
Proof.
  unfold io_events.
  induction evs as [|[q o|n|l] evs IH]; cbn [filter total_sleep];
    [reflexivity| | |]; now rewrite ?IH.
Qed.

Lemma publish_bounds (request : TaskRequest) (html_code : pyval)
    (w : world) (t evs : list event) (r : result (pyval * pyval)) :
  publish request html_code w t = (evs, r) ->
  (List.length (calls evs) <= 4)%nat /\
  (0 <= total_sleep evs <= 3)%Z /\
  (round request <> 1%Z -> total_sleep evs = 0%Z).
Proof.
  intros H. unfold publish in H.
  destruct (round request =? 1)%Z eqn:Hround;
    [apply Z.eqb_eq in Hround|apply Z.eqb_neq in Hround];
    unfold create_github_repo, update_github_repo, update_file_in_repo,
      add_file_to_repo in H;
    run_all H; cbn [calls List.length total_sleep]; repeat split; lia.
Qed.

Lemma enable_bounds (request : TaskRequest) (w : world) (t evs : list event)
    (r : result unit) :
  enable_pages_on_first_round request w t = (evs, r) ->
  (List.length (calls evs) <= 1)%nat /\
  (0 <= total_sleep evs <= 5)%Z /\
  (round request <> 1%Z -> evs = []).
Proof.
  unfold enable_pages_on_first_round.
  destruct (round request =? 1)%Z eqn:Hround.
  - apply Z.eqb_eq in Hround. unfold bind at 1, print.
    rewrite enable_github_pages_run.
    destruct (w _ (pages_request (task request))) as [resp|msg]; intros H;
      apply pair_equal_spec in H; destruct H as [<- _];
      [destruct ((status_code resp =? 201) || (status_code resp =? 409))%Z|];
      cbn [app calls List.length total_sleep]; repeat split; lia.
  - intros H. unfold ret in H. injection H as <- _. cbn. repeat split; lia.
Qed.

Lemma notify_bounds (request : TaskRequest) (u s : pyval) (p : string)
    (w : world) (t evs : list event) (r : result unit) :
  notify_evaluation request u s p w t = (evs, r) ->
  (List.length (calls evs) <= 5)%nat /\ (0 <= total_sleep evs <= 15)%Z.
Proof.
  intros H. unfold notify_evaluation in H.
  destruct (notify_loop_run _ _ w t evs r H) as (os & _ & Hio & _).
  rewrite <- calls_io_events, <- total_sleep_io_events, Hio.
  destruct os as [|o1 [|o2 [|o3 [|o4 [|o5 os]]]]];
    cbn [schedule Z.ltb Z.compare app calls List.length total_sleep]; split; lia.
Qed.

(** X11: whatever the world answers, the handler makes at most 11 calls
    and sleeps 23 seconds at most; when the round is not 1, at most 10
    calls and 15 seconds, all of them in the notifier. *)
Theorem receive_task_bounds (request : TaskRequest) (w : world)
    (t evs : list event) (r : result pyval) :
  receive_task request w t = (evs, r) ->
  (List.length (calls evs) <= 11)%nat /\
  (0 <= total_sleep evs <= 23)%Z /\
  (round request <> 1%Z ->
   (List.length (calls evs) <= 10)%nat /\ (total_sleep evs <= 15)%Z).
Proof.
  intros H.
  destruct (secret_differs request) eqn:E.
  { rewrite (receive_task_unauthorised _ _ _ _ _ E H). cbn. repeat split; lia. }
  apply secret_differs_false in E.
  assert (Hsum : exists e_gen e_pub e_pages e_notify html t2 r_pub t3 r_pages,
            (List.length (calls e_gen) <= 1)%nat /\ total_sleep e_gen = 0%Z /\
            (e_pub = [] \/ publish request html w t2 = (e_pub, r_pub)) /\
            (e_pages = [] \/
             enable_pages_on_first_round request w t3 = (e_pages, r_pages)) /\
            (List.length (calls e_notify) <= 5)%nat /\
            (0 <= total_sleep e_notify <= 15)%Z /\
            List.length (calls evs) =
            List.length (calls e_gen ++ calls e_pub ++ calls e_pages ++ calls e_notify) /\
            total_sleep evs =
            (total_sleep e_gen + total_sleep e_pub + total_sleep e_pages +
             total_sleep e_notify)%Z).
  { assert (Hev : exists evs' r', pipeline request w t = (evs', r') /\
                    calls evs = calls evs' /\ total_sleep evs = total_sleep evs').
    { destruct (receive_task_inv _ _ _ _ _ E H)
        as [(body & Hp & ->)|(e & evs' & Hp & -> & ->)].
      - now exists evs, (Ok body).
      - exists evs', (Raise e). split; [exact Hp|].
        rewrite calls_app, total_sleep_app. cbn. split; [apply app_nil_r|lia]. }
    destruct Hev as (evs' & r' & Hp & -> & ->).
    apply pipeline_inv in Hp. cbv zeta in Hp.
    destruct Hp as (t1 & e_gen & r_gen & Hgen & Hp).
    destruct (generate_app_with_groq_run _ _ _ _ _ _ _ Hgen) as [o ->].
    destruct r_gen as [html|e1].
    2:{ destruct Hp as [-> _].
        exists [EvHttp (groq_request (brief request) (checks request)
                          (attachments request)) o], [], [], [], PyNone, [],
               (Raise e1), [], (Raise e1).
        cbn. repeat split; auto; lia. }
    destruct Hp as (t2 & e_pub & r_pub & Hpub & Hp).
    destruct r_pub as [[u s]|e1].
    2:{ destruct Hp as [-> _].
        exists [EvHttp (groq_request (brief request) (checks request)
                          (attachments request)) o], e_pub, [], [], html, t2,
               (Raise e1), [], (Raise e1).
        cbn [calls app List.length total_sleep]. rewrite !app_nil_r.
        repeat split; auto; try lia. }
    destruct Hp as (t3 & e_pages & r_pages & Hpages & Hp).
    destruct r_pages as [[]|e1].
    2:{ destruct Hp as [-> _].
        exists [EvHttp (groq_request (brief request) (checks request)
                          (attachments request)) o], e_pub, e_pages, [], html, t2,
               (Ok (u, s)), t3, (Raise e1).
        cbn [calls app List.length total_sleep].
        rewrite !calls_app, !total_sleep_app, !app_nil_r.
        repeat split; auto; try lia. }
    destruct Hp as (t4 & e_notify & Hnotify & -> & _).
    destruct (notify_bounds _ _ _ _ _ _ _ _ Hnotify) as [Hn1 Hn2].
    exists [EvHttp (groq_request (brief request) (checks request)
                      (attachments request)) o], e_pub, e_pages, e_notify, html, t2,
           (Ok (u, s)), t3, (Ok tt).
    cbn [calls app List.length total_sleep].
    rewrite !calls_app, !total_sleep_app. cbn [calls total_sleep].
    rewrite !calls_app, !total_sleep_app. cbn [calls total_sleep].
    rewrite !app_nil_r.
    repeat split; auto; try lia. }
  destruct Hsum as (e_gen & e_pub & e_pages & e_notify & html & t2 & r_pub & t3 &
                    r_pages & Hg1 & Hg2 & Hpub & Hpages & Hn1 & Hn2 & Hlen & Hsleep).
  assert (Bpub : (List.length (calls e_pub) <= 4)%nat /\
                 (0 <= total_sleep e_pub <= 3)%Z /\
                 (round request <> 1%Z -> total_sleep e_pub = 0%Z)).
  { destruct Hpub as [->|Hpub]; [cbn; repeat split; lia|].
    exact (publish_bounds _ _ _ _ _ _ Hpub). }
  assert (Bpages : (List.length (calls e_pages) <= 1)%nat /\
                   (0 <= total_sleep e_pages <= 5)%Z /\
                   (round request <> 1%Z -> e_pages = [])).
  { destruct Hpages as [->|Hpages]; [cbn; repeat split; auto; lia|].
    exact (enable_bounds _ _ _ _ _ Hpages). }
  destruct Bpub as (Bp1 & Bp2 & Bp3). destruct Bpages as (Bg1 & Bg2 & Bg3).
  rewrite Hlen, Hsleep, !length_app.
  split; [lia|]. split; [lia|]. intros Hround.
  rewrite (Bg3 Hround), (Bp3 Hround). cbn. lia.
Qed.

Lemma encode_content_inv (content : pyval) (enc : string) :
  encode_content content = Ok enc ->
  exists s, content = PyStr s /\ enc = Str.b64encode (Str.encode s).
Proof.
  destruct content; cbn [encode_content]; intros H; try discriminate H.
  injection H as <-. now eexists.
Qed.

(** X12: when an authorised run ends with the success body, what is
    committed to index.html is the text the generation gave: the content of
    every write of that path is the base64 text of the bytes of the cleaned
    content of the answer to the call of the generation. *)
Theorem published_artifact_is_the_generated_text (request : TaskRequest) (w : world)
    (t evs : list event) (body : pyval) :
  Some (secret request) = MY_SECRET ->
  receive_task request w t = (evs, Ok body) ->
  getitem body "status" = Ok (PyStr "success") ->
  exists o s,
    In (groq_request (brief request) (checks request) (attachments request), o)
      (calls evs) /\
    generated o = Ok (PyStr s) /\
    (exists q o',
       In (q, o') (calls evs) /\ q_method q = PUT /\
       q_url q = contents_url (task request) "index.html") /\
    (forall q o', In (q, o') (calls evs) -> q_method q = PUT ->
       q_url q = contents_url (task request) "index.html" ->
       exists d,
         q_json q = Some (PyDict d) /\
         lookup "content" d = Some (PyStr (Str.b64encode (Str.encode s)))).
Proof.
  intros Hs H Hstatus.
  destruct (receive_task_success _ _ _ _ _ Hs H Hstatus)
    as (t1 & e_gen & html & t2 & e_pub & u & c & t3 & e_pages & t4 & e_notify &
        Hgen & Hpub & Hpages & Hnotify & Hcalls & _).
  pose proof (generate_calls _ _ _ _ _ _ _ Hgen) as Cgen.
  rewrite generate_app_with_groq_exact in Hgen.
  apply pair_equal_spec in Hgen. destruct Hgen as [<- Hgen].
  destruct (publish_commit_sha _ _ _ _ _ _ Hpub u c eq_refl)
    as ((q & resp & Hin & Hm & Hu & _) & _).
  destruct (publish_content _ _ _ _ _ _ Hpub _ _ Hin Hm Hu) as (enc & d & He & _).
  destruct (encode_content_inv _ _ He) as (s & -> & ->).
  eexists; exists s. rewrite Hcalls. split; [now left|]. split; [exact Hgen|].
  split.
  - exists q, (Responded resp). split; [|now split].
    apply in_or_app; right. apply in_or_app; now left.
  - intros q' o' Hi Hm' Hu'.
    apply in_app_or in Hi as [Hi|Hi].
    { destruct (Cgen _ _ Hi) as (Hp & _). rewrite Hp in Hm'. discriminate Hm'. }
    apply in_app_or in Hi as [Hi|Hi].
    { destruct (publish_content _ _ _ _ _ _ Hpub _ _ Hi Hm' Hu')
        as (enc' & d' & He' & Hj & Hl).
      injection He' as <-. now exists d'. }
    apply in_app_or in Hi as [Hi|Hi].
    { apply (enable_calls _ _ _ _ _ Hpages) in Hi.
      destruct Hi as (-> & _). discriminate Hm'. }
    apply (notify_evaluation_calls _ _ _ _ _ _ _ _ Hnotify) in Hi.
    subst q'. discriminate Hm'.
Qed.

Lemma slice_to_length (n : nat) (s : string) :
  String.length (Str.slice_to n s) = Nat.min n (String.length s).
Proof.
  unfold Str.slice_to. revert n.
  induction s as [|c s IH]; intros [|n]; cbn [substring String.length Nat.min];
    try reflexivity.
  now rewrite IH.
Qed.

Lemma slice_to_prefix (n : nat) (s : string) : prefix (Str.slice_to n s) s = true.
Proof.
  unfold Str.slice_to. revert n.
  induction s as [|c s IH]; intros [|n]; cbn [substring prefix]; try reflexivity.
  destruct (ascii_dec c c) as [_|Hne]; [apply IH|now destruct Hne].
Qed.

(** X14: the description sent with the creation of a repository is
    ["Auto-generated: "] followed by the first 100 characters of the brief,
    the whole brief when it is no longer: it is 116 characters long at
    most. *)
Theorem description_is_truncated (repo_name brief : string) :
  exists d desc,
    q_json (create_request repo_name brief) = Some (PyDict d) /\
    lookup "description" d = Some (PyStr ("Auto-generated: " ++ desc)) /\
    prefix desc brief = true /\
    String.length desc = Nat.min 100 (String.length brief) /\
    (String.length ("Auto-generated: " ++ desc) <= 116)%nat.
Proof.
  eexists; exists (Str.slice_to 100 brief).
  split; [reflexivity|]. split; [reflexivity|].
  split; [apply slice_to_prefix|].
  split; [apply slice_to_length|].
  cbn [append String.length]. rewrite slice_to_length. lia.
Qed.

End Service.

(** ** Runs on the example world *)

Example split_at_fences :
  Str.split ("a" ++ backticks ++ "b" ++ backticks ++ "``c") backticks = ["a"; "b"; "``c"].
Proof. reflexivity. Qed.

Example replace_from_the_left : Str.replace "xhtmlhtmHTMLl" "html" "" = "xhtmHTMLl".
Proof. reflexivity. Qed.

Example strip_both_ends : Str.strip (nl ++ "  a b " ++ nl) = "a b".
Proof. reflexivity. Qed.

Example b64encode_padding :
  Str.b64encode (Str.encode "Ma") = "TWE=" /\ Str.b64encode (Str.encode "M") = "TQ==".
Proof. split; reflexivity. Qed.

(** The calls of the first round: the generation, the creation, the three
    writes, the pages, the notification. *)
Example first_round_calls :
  map (fun c => (q_method (fst c), q_url (fst c)))
    (calls (fst (receive_task example_builtin_str (Some "s3cret") None None
                   (example_request 1) example_world []))) =
  [(POST, "https://api.groq.com/openai/v1/chat/completions");
   (POST, "https://api.github.com/user/repos");
   (PUT, "https://api.github.com/repos/SiriChandanaSykam/demo1/contents/README.md");
   (PUT, "https://api.github.com/repos/SiriChandanaSykam/demo1/contents/index.html");
   (PUT, "https://api.github.com/repos/SiriChandanaSykam/demo1/contents/LICENSE");
   (POST, "https://api.github.com/repos/SiriChandanaSykam/demo1/pages");
   (POST, "https://eval.example/cb")].
Proof. vm_compute. reflexivity. Qed.

(** The calls of the second round: no creation, no pages; each write after
    a read. *)
Example second_round_calls :
  map (fun c => (q_method (fst c), q_url (fst c)))
    (calls (fst (receive_task example_builtin_str (Some "s3cret") None None
                   (example_request 2) example_world []))) =
  [(POST, "https://api.groq.com/openai/v1/chat/completions");
   (GET, "https://api.github.com/repos/SiriChandanaSykam/demo1/contents/index.html");
   (PUT, "https://api.github.com/repos/SiriChandanaSykam/demo1/contents/index.html");
   (GET, "https://api.github.com/repos/SiriChandanaSykam/demo1/contents/README.md");
   (PUT, "https://api.github.com/repos/SiriChandanaSykam/demo1/contents/README.md");
   (POST, "https://eval.example/cb")].
Proof. vm_compute. reflexivity. Qed.

(** When the evaluation URL never answers, the notifier makes its five
    attempts and returns; the handler still answers with the success body. *)
Example notifier_gives_up :
  let run := receive_task example_builtin_str (Some "s3cret") None None
               (example_request 2) silent_world [] in
  io_events (skipn 9 (fst run)) =
  (let q := notify_request (example_request 2)
              (PyStr "https://github.com/SiriChandanaSykam/demo1") (PyInt 5)
              "https://SiriChandanaSykam.github.io/demo1/" in
   [EvHttp q (Failed "timed out"); EvSleep 1; EvHttp q (Failed "timed out");
    EvSleep 2; EvHttp q (Failed "timed out"); EvSleep 4;
    EvHttp q (Failed "timed out"); EvSleep 8; EvHttp q (Failed "timed out")]) /\
  getitem (match snd run with Ok body => body | Raise _ => PyNone end) "status" =
  Ok (PyStr "success").
Proof. vm_compute. split; reflexivity. Qed.

(** ** The properties at an input *)

(** C7: the call that enables the pages of demo1 gets no answer.  The
    enabler raises, without its sleep, and the run it belongs to ends
    there: the handler answers with the error body and the evaluation URL
    is not notified, although the repository is created and written. *)
Lemma enable_github_pages_raises_unanswered :
  enable_github_pages None "demo1" pages_down_world [] =
  ([EvHttp (pages_request None "demo1") (Failed "connection reset")],
   Raise (RequestException "connection reset")) /\
  (let run := receive_task example_builtin_str (Some "s3cret") None None
                (example_request 1) pages_down_world [] in
   snd run = Ok (error_body "connection reset") /\
   map (fun c => (q_method (fst c), q_url (fst c))) (calls (fst run)) =
   [(POST, "https://api.groq.com/openai/v1/chat/completions");
    (POST, "https://api.github.com/user/repos");
    (PUT, "https://api.github.com/repos/SiriChandanaSykam/demo1/contents/README.md");
    (PUT, "https://api.github.com/repos/SiriChandanaSykam/demo1/contents/index.html");
    (PUT, "https://api.github.com/repos/SiriChandanaSykam/demo1/contents/LICENSE");
    (POST, "https://api.github.com/repos/SiriChandanaSykam/demo1/pages")]).
Proof. vm_compute. repeat split. Qed.

(** C2: the fenced block of this text holds a root tag, and the text
    cleaned is not that block without a leading token, since every
    ["html"] of the block is gone and the whitespace around it too; and a
    text whose only fence is not closed, so that it has no fenced block, is
    changed all the same. *)
Lemma clean_code_blocks_alters_the_block :
  (let block := "html" ++ nl ++ "<html><body>hi</body></html>" ++ nl in
   let text := backticks ++ block ++ backticks in
   In block (fenced_blocks (Str.split text backticks)) /\
   Str.contains "<html" (Str.lower block) = true /\
   clean_code_blocks text = "<><body>hi</body></>" /\
   ~ (exists tag, block = tag ++ clean_code_blocks text)) /\
  (let text := "<html>hi</html>" ++ backticks ++ "done" in
   fenced_blocks (Str.split text backticks) = [] /\
   clean_code_blocks text = "<>hi</>" /\
   clean_code_blocks text <> text).
Proof.
  split.
  - cbv zeta. split; [now left|]. split; [reflexivity|]. split; [reflexivity|].
    intros [tag H].
    lazymatch type of H with
    | ?b = tag ++ ?c =>
        let b' := eval vm_compute in b in
        let c' := eval vm_compute in c in
        change (b' = tag ++ c') in H
    end.
    repeat (destruct tag as [|? tag]; cbn [append] in H;
            [discriminate H|first [discriminate H|injection H as _ H]]).
  - cbv zeta. split; [reflexivity|]. split; [reflexivity|]. discriminate.
Qed.

Lemma notify_evaluation_retries_witness :
  let q := notify_request (example_request 1) PyNone PyNone "" in
  io_events (fst (notify_evaluation example_builtin_str (example_request 1)
                    PyNone PyNone "" example_world [])) =
  [EvHttp q (example_world [] q)].
Proof.
  intros q.
  destruct (notify_evaluation_retries example_builtin_str (example_request 1)
              PyNone PyNone "" example_world [])
    as (_ & os & _ & _ & _ & _ & _ & H & _).
  apply H. reflexivity.
Defined.

Lemma publish_round_1_order_witness :
  exists k,
    written_urls (fst (publish None (example_request 1) (PyStr "<html></html>")
                         example_world [])) =
    firstn k [contents_url "demo1" "README.md"; contents_url "demo1" "index.html";
              contents_url "demo1" "LICENSE"].
Proof.
  exact (proj2 (publish_round_1_order None (example_request 1) (PyStr "<html></html>")
                  example_world [] _ _ eq_refl (surjective_pairing _))).
Defined.

Lemma publish_later_rounds_witness :
  exists o post',
    tl (calls (fst (publish None (example_request 2) (PyStr "<html></html>")
                      absent_world []))) =
    (add_request None "demo1" "index.html"
       (Str.b64encode (Str.encode "<html></html>")) "Update app for round 2", o) :: post'.
Proof.
  refine (proj1 (proj1 (proj2 (proj2 (proj2
           (publish_later_rounds None (example_request 2) (PyStr "<html></html>")
              absent_world [] _ _ eq_refl (surjective_pairing _))))) [] _ "index.html"
           (mkResponse 404 "Not Found" (Json (PyDict [("message", PyStr "Not Found")])))
           (PyStr "<html></html>") "Update app for round 2"
           (Str.b64encode (Str.encode "<html></html>")) _ _ eq_refl) _).
  - vm_compute. reflexivity.
  - now left.
  - discriminate.
Defined.

Lemma receive_task_wrong_secret_witness :
  receive_task example_builtin_str (Some "another") None None (example_request 1)
    example_world [] =
  ([], Raise (HTTPException 401 "Invalid secret")).
Proof.
  apply (receive_task_wrong_secret example_builtin_str (Some "another") None None
           (example_request 1) example_world []).
  discriminate.
Defined.

Lemma receive_task_answer_witness : http_status (snd (receive_task example_builtin_str (Some "s3cret") None None
       (example_request 1) example_world [])) = 200%Z.
Proof.
  destruct (receive_task_answer example_builtin_str (Some "s3cret") None None
              (example_request 1) example_world [] eq_refl)
    as (evs & r & _ & _ & H).
  exact H.
Defined.

Lemma enable_github_pages_aborts_unanswered_only_witness :
  exists o,
    In (pages_request None "demo1", o)
      (calls (fst (receive_task example_builtin_str (Some "s3cret") None None
                     (example_request 1) example_world []))).
Proof.
  refine (proj2 (proj2 (proj2 (proj2
            (enable_github_pages_aborts_unanswered_only example_builtin_str
               (Some "s3cret") None None)))
            (example_request 1) example_world [] _ _ eq_refl (surjective_pairing _))
            eq_refl
            (add_request None "demo1" "LICENSE"
               (Str.b64encode (Str.encode get_mit_license)) "Add MIT license")
            (mkResponse 201 ""
               (Json (PyDict [("commit", PyDict [("sha", PyInt 9)])])))
            (PyInt 9) _ eq_refl eq_refl eq_refl eq_refl).
  vm_compute. do 4 right. left. reflexivity.
Defined.

Lemma commit_sha_is_artifact_revision_witness :
  exists q resp,
    In (q, Responded resp) (calls (fst (receive_task example_builtin_str (Some "s3cret") None None
       (example_request 1) example_world []))) /\
    q_method q = PUT /\
    q_url q = contents_url "demo1" "index.html" /\
    commit_sha_of resp = Ok (PyInt 8).
Proof.
  assert (H : receive_task example_builtin_str (Some "s3cret") None None
                (example_request 1) example_world [] =
              (fst (receive_task example_builtin_str (Some "s3cret") None None
       (example_request 1) example_world []),
               Ok (success_body (PyStr "https://github.com/octo/demo1")
                     (pages_url_of "demo1") (PyInt 8))))
    by (vm_compute; reflexivity).
  destruct (proj2 (commit_sha_is_artifact_revision example_builtin_str
                     (Some "s3cret") None None (example_request 1))
              example_world [] _ _ eq_refl H eq_refl)
    as (u & c & Hb & _ & Hex & _).
  injection Hb as _ <-. exact Hex.
Defined.

Lemma repo_url_after_round_1_witness :
  exists body,
    snd (receive_task example_builtin_str (Some "s3cret") None None
       (example_request 2) example_world []) = Ok body /\
    getitem body "repo_url" = Ok (PyStr "https://github.com/SiriChandanaSykam/demo1").
Proof.
  assert (H : receive_task example_builtin_str (Some "s3cret") None None
                (example_request 2) example_world [] =
              (fst (receive_task example_builtin_str (Some "s3cret") None None
       (example_request 2) example_world []),
               Ok (success_body (PyStr "https://github.com/SiriChandanaSykam/demo1")
                     (pages_url_of "demo1") (PyInt 5))))
    by (vm_compute; reflexivity).
  exists (success_body (PyStr "https://github.com/SiriChandanaSykam/demo1")
            (pages_url_of "demo1") (PyInt 5)).
  split; [now rewrite H|].
  exact (proj1 (proj2 (repo_url_after_round_1 example_builtin_str (Some "s3cret")
                         None None (example_request 2) eq_refl)
                  example_world [] _ _ eq_refl H eq_refl)).
Defined.

Lemma clean_code_blocks_extracts_witness :
  clean_code_blocks (backticks ++ "html" ++ nl ++ "<Html><body>hi</body></Html>" ++ nl ++
                     backticks) =
  "<Html><body>hi</body></Html>".
Proof.
  apply (proj2 (proj2 (clean_code_blocks_extracts
                        (backticks ++ "html" ++ nl ++ "<Html><body>hi</body></Html>" ++
                         nl ++ backticks)))
           [""] ("html" ++ nl ++ "<Html><body>hi</body></Html>" ++ nl) [""]
           (nl ++ "<Html><body>hi</body></Html>" ++ nl));
    [ reflexivity | reflexivity | intros p [<-|[]]; reflexivity | reflexivity
    | now left | reflexivity | reflexivity ].
Defined.


(** ** The further properties at an input *)

Lemma generation_ignores_status_witness :
  generate_app_with_groq None "a counter app" ["has a button"] None error_status_world [] =
  ([EvHttp (groq_request None "a counter app" ["has a button"] None)
      (Responded (mkResponse 500 "Internal Server Error" (Json example_completion)))],
   Ok (PyStr "<Html><body>hi</body></Html>")).
Proof.
  exact (proj1 (generation_ignores_status None "a counter app" ["has a button"] None
                  error_status_world [] _ eq_refl)).
Defined.

Lemma generation_failure_ends_the_run_witness :
  receive_task example_builtin_str (Some "s3cret") None None (example_request 1)
    offline_world [] =
  ((opening_lines (example_request 1) ++
    [EvHttp (groq_request None "a counter app" ["has a button"] None)
       (Failed "no route to host");
     EvPrint "Error: no route to host"])%list,
   Ok (error_body "no route to host")).
Proof.
  exact (generation_failure_ends_the_run example_builtin_str (Some "s3cret") None None
           (example_request 1) offline_world [] (RequestException "no route to host")
           eq_refl eq_refl).
Defined.

Lemma creation_refused_ends_the_run_witness :
  snd (receive_task example_builtin_str (Some "s3cret") None None (example_request 1)
         taken_world []) =
  Ok (error_body "Failed to create repo: name already exists on this account").
Proof.
  refine (proj1 (creation_refused_ends_the_run example_builtin_str (Some "s3cret")
                   None None (example_request 1) taken_world [] _ _
                   (mkResponse 422 "name already exists on this account" (NotJson ""))
                   eq_refl eq_refl (surjective_pairing _) _ _)).
  - vm_compute. right; left; reflexivity.
  - discriminate.
Defined.

Lemma refused_write_ends_publish_witness :
  exists verb path,
    (verb = "add" \/ verb = "update") /\
    contents_url "demo1" "README.md" = contents_url "demo1" path /\
    snd (publish None (example_request 1) (PyStr "<html></html>") forbidden_world []) =
    Raise (Exception ("Failed to " ++ verb ++ " " ++ path ++ ": " ++ "forbidden")).
Proof.
  refine (proj2 (refused_write_ends_publish None (example_request 1)
                   (PyStr "<html></html>") forbidden_world [] _ _
                   (add_request None "demo1" "README.md"
                      (Str.b64encode
                         (Str.encode (generate_readme "demo1" "a counter app" 1)))
                      "Initial commit")
                   (mkResponse 403 "forbidden" (NotJson ""))
                   (surjective_pairing _) _ eq_refl eq_refl)).
  vm_compute. right; left; reflexivity.
Defined.

Lemma unreadable_revision_ends_publish_witness :
  snd (publish None (example_request 2) (PyStr "<html></html>") listing_world []) =
  Raise (Builtin (TypeError (PyList []))).
Proof.
  refine (proj1 (unreadable_revision_ends_publish None (example_request 2)
                   (PyStr "<html></html>") listing_world [] _ _
                   (get_request None "demo1" "index.html")
                   (mkResponse 200 "[]" (Json (PyList [])))
                   (Builtin (TypeError (PyList [])))
                   (surjective_pairing _) _ eq_refl eq_refl eq_refl)).
  vm_compute. left; reflexivity.
Defined.

Lemma non_text_content_is_never_written_witness :
  written_urls (fst (publish None (example_request 1) (PyList []) example_world [])) = [] \/
  (round (example_request 1) = 1%Z /\
   written_urls (fst (publish None (example_request 1) (PyList []) example_world [])) =
   [contents_url "demo1" "README.md"]).
Proof.
  exact (proj2 (non_text_content_is_never_written None (example_request 1) (PyList [])
                  example_world [] _ _ _ eq_refl (surjective_pairing _))).
Defined.

Lemma later_rounds_write_round_2_witness :
  exists d,
    q_json (update_request None "demo1" "README.md"
              (Str.b64encode (Str.encode (generate_readme "demo1" "a counter app" 2)))
              "Update README for round 2" (PyStr "blob")) = Some (PyDict d) /\
    lookup "content" d =
    Some (PyStr (Str.b64encode
                   (Str.encode (generate_readme "demo1" "a counter app" 2)))) /\
    lookup "message" d = Some (PyStr "Update README for round 2").
Proof.
  refine (later_rounds_write_round_2 None (example_request 3) (PyStr "<html></html>")
            example_world [] _ _
            (update_request None "demo1" "README.md"
               (Str.b64encode (Str.encode (generate_readme "demo1" "a counter app" 2)))
               "Update README for round 2" (PyStr "blob"))
            (Responded (mkResponse 201 ""
               (Json (PyDict [("commit", PyDict [("sha", PyInt 4)])]))))
            _ (surjective_pairing _) _ eq_refl eq_refl).
  - discriminate.
  - vm_compute. right; right; right; left; reflexivity.
Defined.


Lemma pages_without_answer_ends_the_run_witness :
  snd (receive_task example_builtin_str (Some "s3cret") None None (example_request 1)
         pages_down_world []) =
  Ok (error_body "connection reset").
Proof.
  refine (proj1 (pages_without_answer_ends_the_run example_builtin_str (Some "s3cret")
                   None None (example_request 1) pages_down_world [] _ _
                   "connection reset" eq_refl (surjective_pairing _) _)).
  vm_compute. do 5 right. left; reflexivity.
Defined.

Lemma calls_go_to_three_places_witness :
  prefix "https://api.github.com/"
    (q_url (create_request (Some "ghp") "demo1" "a counter app")) = true.
Proof.
  refine (proj2 (calls_go_to_three_places example_builtin_str (Some "s3cret")
                   (Some "ghp") None (example_request 1) example_world [] _ _
                   (create_request (Some "ghp") "demo1" "a counter app")
                   (Responded (mkResponse 201 ""
                      (Json (PyDict [("html_url",
                                      PyStr "https://github.com/octo/demo1")]))))
                   (surjective_pairing _) _) _).
  - vm_compute. right; left; reflexivity.
  - now left.
Defined.

Lemma receive_task_bounds_witness :
  (List.length (calls (fst (receive_task example_builtin_str (Some "s3cret") None None
                              (example_request 1) silent_world []))) <= 11)%nat.
Proof.
  exact (proj1 (receive_task_bounds example_builtin_str (Some "s3cret") None None
                  (example_request 1) silent_world [] _ _ (surjective_pairing _))).
Defined.

Lemma published_artifact_is_the_generated_text_witness :
  exists o s,
    In (groq_request None "a counter app" ["has a button"] None, o)
      (calls (fst (receive_task example_builtin_str (Some "s3cret") None None
                     (example_request 1) example_world []))) /\
    generated o = Ok (PyStr s).
Proof.
  assert (H : receive_task example_builtin_str (Some "s3cret") None None
                (example_request 1) example_world [] =
              (fst (receive_task example_builtin_str (Some "s3cret") None None
                      (example_request 1) example_world []),
               Ok (success_body (PyStr "https://github.com/octo/demo1")
                     (pages_url_of "demo1") (PyInt 8))))
    by (vm_compute; reflexivity).
  destruct (published_artifact_is_the_generated_text example_builtin_str
              (Some "s3cret") None None (example_request 1) example_world [] _ _
              eq_refl H eq_refl)
    as (o & s & Hin & Hgen & _).
  now exists o, s.
Defined.
